(** * staticgenerator: path mapping and the publish / delete protocol

    A shallow embedding of [staticgenerator/__init__.py] (Python 2):
    the methods [get_query_string_from_path], [get_filename_from_path],
    [get_content_from_path], [publish_from_path], [delete_from_path],
    [recursive_delete_from_path], [do_all], [publish], [delete] and
    [recursive_delete] of the class [StaticGenerator].

    - A Python 2 [str] is a byte string; it is modelled by [string], whose
      characters are the 256 byte values.  [extract_resources] normalises
      every string resource with [str(resource)], so the paths handed to
      the batch driver have this type.
    - [None] is modelled by [option].
    - Exceptions (instances of subclasses of [Exception]) are values of
      type [exn]; a computation that can raise returns a [result].
    - Calls that leave the interpreter (the Django handler, the [os],
      [tempfile] and [shutil] functions) are nodes of a command tree
      [prog]; [run] plays such a tree against an arbitrary environment and
      records the calls that were made, in order.
    - [urlparse.urlparse] of the standard library is a parameter;
      [RequestFactory().get] is taken to build its request without
      raising.
    - The constructor, [extract_resources] and [get_server_name] read the
      Django settings and models; the generator is modelled after
      construction, by the three attributes the constructor sets. *)

From Stdlib Require Import String Ascii List ZArith Lia Bool Arith.
From Stdlib Require Import DecimalString.
Import ListNotations.
Local Open Scope string_scope.

(** ** Python 2 byte strings *)

Module PyStr.

Definition slash : ascii := "/"%char.
Definition qmark : ascii := "?"%char.

(** [s.endswith(suffix)] *)
Fixpoint endswith (s suffix : string) : bool :=
  (s =? suffix) ||
  match s with
  | EmptyString => false
  | String _ t => endswith t suffix
  end.

(** [s.startswith(p)] *)
Definition startswith (s p : string) : bool := prefix p s.

(** [s.lstrip(c)] for a one-character strip set. *)
Fixpoint lstrip (c : ascii) (s : string) : string :=
  match s with
  | EmptyString => EmptyString
  | String a t => if Ascii.eqb a c then lstrip c t else s
  end.

(** [s.rstrip(c)] for a one-character strip set. *)
Fixpoint rstrip (c : ascii) (s : string) : string :=
  match s with
  | EmptyString => EmptyString
  | String a t =>
      let t' := rstrip c t in
      if (t' =? "") && Ascii.eqb a c then "" else String a t'
  end.

(** [s.split(sep)] for a one-character separator: always a non-empty
    list, one more part than there are separators. *)
Fixpoint split (sep : ascii) (s : string) : list string :=
  match s with
  | EmptyString => [EmptyString]
  | String a t =>
      if Ascii.eqb a sep then EmptyString :: split sep t
      else match split sep t with
           | h :: r => String a h :: r
           | [] => [String a EmptyString]
           end
  end.

(** [s.rfind(c) + 1]: the index just after the last [c], 0 when [c]
    does not occur. *)
Fixpoint rfind_succ (c : ascii) (s : string) : nat :=
  match s with
  | EmptyString => 0
  | String a t =>
      match rfind_succ c t with
      | 0 => if Ascii.eqb a c then 1 else 0
      | S i => S (S i)
      end
  end.

(** [s == c * len(s)] *)
Fixpoint all_char (c : ascii) (s : string) : bool :=
  match s with
  | EmptyString => true
  | String a t => Ascii.eqb a c && all_char c t
  end.

(** Number of occurrences of a character. *)
Fixpoint count (c : ascii) (s : string) : nat :=
  match s with
  | EmptyString => 0
  | String a t => (if Ascii.eqb a c then 1 else 0) + count c t
  end.

(** The part of [s] before the first [c] (all of [s] without one). *)
Fixpoint before (c : ascii) (s : string) : string :=
  match s with
  | EmptyString => EmptyString
  | String a t => if Ascii.eqb a c then EmptyString else String a (before c t)
  end.

(** The part of [s] after the first [c] (empty without one). *)
Fixpoint after (c : ascii) (s : string) : string :=
  match s with
  | EmptyString => EmptyString
  | String a t => if Ascii.eqb a c then t else after c t
  end.

(** Truth value of a [str]-or-[None] object: [None] and [''] are false. *)
Definition truth (o : option string) : bool :=
  match o with
  | None => false
  | Some EmptyString => false
  | Some _ => true
  end.

(** ['%s' % o] for a [str]-or-[None] object. *)
Definition percent_s (o : option string) : string :=
  match o with
  | None => "None"
  | Some s => s
  end.

(** ['%d' % n] *)
Definition percent_d (n : Z) : string := NilZero.string_of_int (Z.to_int n).

Definition hex_digit (n : nat) : ascii :=
  if (n <? 10)%nat then ascii_of_nat (48 + n) else ascii_of_nat (87 + n).

(** ['%02x' % ord(c)] *)
Definition percent_02x (c : ascii) : string :=
  let n := nat_of_ascii c in
  String (hex_digit (n / 16)) (String (hex_digit (n mod 16)) EmptyString).

(** The position and value of the first byte outside the ASCII range. *)
Fixpoint first_non_ascii (pos : nat) (s : string) : option (nat * ascii) :=
  match s with
  | EmptyString => None
  | String a t =>
      if (nat_of_ascii a <? 128)%nat then first_non_ascii (S pos) t
      else Some (pos, a)
  end.

(** The one-character string holding a double quote. *)
Definition dquote : string := String (ascii_of_nat 34) EmptyString.

End PyStr.
Import PyStr.

(** ** Exceptions and results *)

Inductive exn_class : Type :=
| StaticGeneratorExceptionClass
| OSErrorClass
| IOErrorClass
| TypeErrorClass
| ValueErrorClass
| UnicodeDecodeErrorClass
| OtherExceptionClass (name : string).

(** An exception instance (of a subclass of [Exception]): its class and
    the text [str(err)] gives. *)
Record exn : Type := mk_exn { exn_type : exn_class; exn_str : string }.

Definition StaticGeneratorException (msg : string) : exn :=
  mk_exn StaticGeneratorExceptionClass msg.

Definition is_OSError (e : exn) : bool :=
  match exn_type e with
  | OSErrorClass => true
  | _ => false
  end.

(** What [os.stat(None)] and [os.lstat(None)] raise. *)
Definition TypeError_None : exn :=
  mk_exn TypeErrorClass "coercing to Unicode: need string or buffer, NoneType found".

(** What the implicit ASCII decoding of a [str] raises. *)
Definition UnicodeDecodeError (pos : nat) (byte : ascii) : exn :=
  mk_exn UnicodeDecodeErrorClass
    ("'ascii' codec can't decode byte 0x" ++ percent_02x byte ++
     " in position " ++ percent_d (Z.of_nat pos) ++
     ": ordinal not in range(128)").

Inductive result (A : Type) : Type :=
| Ok (a : A)
| Raise (e : exn).
Arguments Ok {A} a.
Arguments Raise {A} e.

Definition is_ok {A} (r : result A) : bool :=
  match r with
  | Ok _ => true
  | Raise _ => false
  end.

(** ** [os.path] and [str.encode] *)

Module os_path.

(** [posixpath.join(a, b)] *)
Definition join (a b : string) : string :=
  if startswith b "/" then b
  else if (a =? "") || endswith a "/" then a ++ b
  else a ++ "/" ++ b.

(** [posixpath.dirname(p)] *)
Definition dirname (p : string) : string :=
  let i := rfind_succ slash p in
  let head := substring 0 i p in
  if negb (head =? "") && negb (all_char slash head)
  then rstrip slash head
  else head.

End os_path.

(** [s.encode('utf-8')] on a [str]: the bytes are first decoded with the
    ASCII codec, which raises on a byte above 127; the re-encoding of
    ASCII text is the same bytes. *)
Definition encode_utf8 (s : string) : result string :=
  match first_non_ascii 0 s with
  | None => Ok s
  | Some (pos, byte) => Raise (UnicodeDecodeError pos byte)
  end.

(** ** The generator object *)

Record StaticGenerator : Type := {
  resources : list string;
  server_name : string;
  web_root : string
}.

(** ** Path mapper *)

(** [parts[i]]; [split] never returns an empty list, so the default is
    not reached. *)
Definition part (parts : list string) (i : nat) : string := nth i parts "".

Definition get_query_string_from_path (path : string)
  : result (string * option string) :=
  let parts := split qmark path in
  if (List.length parts =? 1)%nat then Ok (part parts 0, None)
  else if (2 <? List.length parts)%nat then
    Raise (StaticGeneratorException
             ("Path " ++ path ++ " has multiple query string values"))
  else Ok (part parts 0, Some (part parts 1)).

Definition get_filename_from_path (self : StaticGenerator) (path : string)
    (query_string : option string) (is_ajax : bool)
  : result (option string * option string) :=
  let path := if endswith path "/" then path ++ "index.html%3F" else path in
  let path := match query_string with
              | None | Some EmptyString => path      (* if query_string: *)
              | Some query_string => path ++ query_string
              end in
  let path := if is_ajax then path ++ ",ajax" else path in
  match encode_utf8 (os_path.join (web_root self) (lstrip slash path)) with
  | Raise e => Raise e
  | Ok filename =>
      if (255 <? String.length filename)%nat then Ok (None, None)
      else Ok (Some filename, Some (os_path.dirname filename))
  end.

(** ** The cache name in closed form

    The name a URL maps to, written as one concatenation of optional
    segments; [get_filename_from_path_cache_name] relates the code to it. *)

Definition index_segment (path : string) : string :=
  if endswith path "/" then "index.html%3F" else "".

Definition query_segment (query_string : option string) : string :=
  match query_string with
  | Some q => q
  | None => ""
  end.

Definition ajax_segment (is_ajax : bool) : string :=
  if is_ajax then ",ajax" else "".

Definition cache_name (root path : string) (query_string : option string)
    (is_ajax : bool) : string :=
  os_path.join root
    (lstrip slash (path ++ index_segment path ++ query_segment query_string
                        ++ ajax_segment is_ajax)).

(** Whether every byte is in the ASCII range. *)
Fixpoint is_ascii (s : string) : bool :=
  match s with
  | EmptyString => true
  | String a t => (nat_of_ascii a <? 128)%nat && is_ascii t
  end.

(** What [os.path.join] puts in front of a relative name: it depends on
    the root only. *)
Definition root_prefix (root : string) : string :=
  if (root =? "") || endswith root "/" then root else root ++ "/".

(** ** Calls that leave the interpreter *)

(** The request object [get_content_from_path] builds: the URL given to
    [RequestFactory().get], the two fields overwritten from the parsed
    URL, and the three values offered to [request.META.setdefault]. *)
Record HttpRequest : Type := {
  request_url : string;
  path_info : string;
  GET : string;
  META_SERVER_PORT : Z;
  META_SERVER_NAME : string;
  META_REMOTE_ADDR : string
}.

Record HttpResponse : Type := {
  status_code : Z;
  content : string
}.

(** The two fields of [urlparse.urlparse(path)] the code reads. *)
Record ParseResult : Type := {
  parsed_path : string;
  parsed_query : string
}.

Inductive syscall : Type :=
| DummyHandler (request : HttpRequest)          (* DummyHandler()(request) *)
| OsStat (path : string)                         (* os.stat, under os.path.exists *)
| OsMakedirs (path : string)                     (* os.makedirs *)
| TempfileMkstemp (dir : option string)          (* tempfile.mkstemp(dir=...) *)
| OsWrite (fd : Z) (data : string)               (* os.write *)
| OsClose (fd : Z)                               (* os.close *)
| OsChmod (path : string) (mode : Z)             (* os.chmod *)
| OsRename (src dst : string)                    (* os.rename *)
| OsRemove (path : string)                       (* os.remove *)
| OsRmdir (path : string)                        (* os.rmdir *)
| ShutilRmtree (path : string).                  (* shutil.rmtree(path, True) *)

(** What each call returns when it does not raise. *)
Definition reply (c : syscall) : Type :=
  match c with
  | DummyHandler _ => HttpResponse
  | TempfileMkstemp _ => (Z * string)%type
  | OsWrite _ _ => Z
  | _ => unit
  end.

(** ** Command trees *)

Inductive prog (A : Type) : Type :=
| Ret (a : A)
| Throw (e : exn)
| Sys (c : syscall) (k : result (reply c) -> prog A).
Arguments Ret {A} a.
Arguments Throw {A} e.
Arguments Sys {A} c k.

Fixpoint bind {A B : Type} (p : prog A) (f : A -> prog B) : prog B :=
  match p with
  | Ret a => f a
  | Throw e => Throw e
  | Sys c k => Sys c (fun r => bind (k r) f)
  end.

Notation "x <- p ;; q" := (bind p (fun x => q))
  (at level 61, p at next level, right associativity).
Notation "' pat <- p ;; q" := (bind p (fun x => match x with pat => q end))
  (at level 61, pat pattern, p at next level, right associativity).
Notation "p ;;; q" := (bind p (fun _ => q))
  (at level 61, right associativity).

(** A pure computation that may raise. *)
Definition lift {A : Type} (r : result A) : prog A :=
  match r with
  | Ok a => Ret a
  | Raise e => Throw e
  end.

(** One call: the reply is returned, an exception is re-raised. *)
Definition call (c : syscall) : prog (reply c) := Sys c lift.

(** [try: p  except <classes>: handler] where [catches] tells which
    exceptions the clause matches. *)
Fixpoint try_except {A : Type} (p : prog A) (catches : exn -> bool)
    (handler : exn -> prog A) : prog A :=
  match p with
  | Ret a => Ret a
  | Throw e => if catches e then handler e else Throw e
  | Sys c k => Sys c (fun r => try_except (k r) catches handler)
  end.

(** A bare [except:] and [except Exception]. *)
Definition any_exception (e : exn) : bool := true.

(** ** Running a command tree *)

Record event : Type := Event {
  ev_call : syscall;
  ev_reply : result (reply ev_call)
}.

(** The world outside: a state and, for each call, a reply and a new
    state.  Any behaviour of the operating system and of the Django
    handler is some environment. *)
Definition environment (W : Type) : Type :=
  W -> forall c : syscall, result (reply c) * W.

Fixpoint run {W A : Type} (E : environment W) (p : prog A) (w : W)
  : result A * W * list event :=
  match p with
  | Ret a => (Ok a, w, [])
  | Throw e => (Raise e, w, [])
  | Sys c k =>
      let '(r, w1) := E w c in
      let '(res, w2, tr) := run E (k r) w1 in
      (res, w2, Event c r :: tr)
  end.

(** ** The [os], [tempfile], [shutil] and [stat] modules *)

Module stat.
Definition S_IREAD : Z := 256.
Definition S_IWRITE : Z := 128.
Definition S_IRUSR : Z := 256.
Definition S_IWUSR : Z := 128.
Definition S_IRGRP : Z := 32.
Definition S_IROTH : Z := 4.
End stat.

(** What [posixpath.split(None)], reached from [os.makedirs(None)],
    raises. *)
Definition AttributeError_rfind : exn :=
  mk_exn (OtherExceptionClass "AttributeError")
    "'NoneType' object has no attribute 'rfind'".

(** [os.path.exists(path)]: [os.stat] with [os.error] turned into
    [False]; any other exception, such as the [TypeError] for [None],
    passes. *)
Definition os_path_exists (path : option string) : prog bool :=
  match path with
  | None => Throw TypeError_None
  | Some p =>
      try_except (call (OsStat p) ;;; Ret true) is_OSError (fun _ => Ret false)
  end.

Definition os_makedirs (path : option string) : prog unit :=
  match path with
  | None => Throw AttributeError_rfind
  | Some p => call (OsMakedirs p)
  end.

Definition tempfile_mkstemp (dir : option string) : prog (Z * string) :=
  call (TempfileMkstemp dir).

Definition os_write (fd : Z) (data : string) : prog Z := call (OsWrite fd data).

Definition os_close (fd : Z) : prog unit := call (OsClose fd).

Definition os_chmod (path : string) (mode : Z) : prog unit :=
  call (OsChmod path mode).

Definition os_rename (src dst : string) : prog unit := call (OsRename src dst).

Definition os_remove (path : option string) : prog unit :=
  match path with
  | None => Throw TypeError_None
  | Some p => call (OsRemove p)
  end.

Definition os_rmdir (path : option string) : prog unit :=
  match path with
  | None => Throw TypeError_None
  | Some p => call (OsRmdir p)
  end.

(** [shutil.rmtree(path, True)]: with [ignore_errors] set every
    [os.error] met on the way is dropped; for [None] the first
    [os.lstat] raises [TypeError], which is not. *)
Definition shutil_rmtree (path : option string) : prog unit :=
  match path with
  | None => Throw TypeError_None
  | Some p => try_except (call (ShutilRmtree p)) is_OSError (fun _ => Ret tt)
  end.

(** ** Publisher and invalidator *)

Section Generator.

(** [urlparse.urlparse] of the Python standard library. *)
Variable urlparse : string -> result ParseResult.

Definition get_content_from_path (self : StaticGenerator) (path : string)
  : prog string :=
  parsed <- lift (urlparse path) ;;
  let request :=
    {| request_url := path;
       path_info := parsed_path parsed;
       GET := parsed_query parsed;
       META_SERVER_PORT := 80;
       META_SERVER_NAME := server_name self;
       META_REMOTE_ADDR := "127.0.0.1" |} in
  response <- try_except (call (DummyHandler request)) any_exception
                (fun err => Throw (StaticGeneratorException
                   ("The requested page(" ++ dquote ++ path ++ dquote ++
                    ") raised an exception. Static Generation failed. Error: "
                    ++ exn_str err))) ;;
  if negb (status_code response =? 200)%Z
  then Throw (StaticGeneratorException
                ("The requested page(" ++ dquote ++ path ++ dquote ++
                 ") returned http code " ++ percent_d (status_code response)
                 ++ ". Static Generation failed."))
  else Ret (content response).

Definition publish_from_path (self : StaticGenerator) (path : string)
    (query_string : option string) (content : option string)
    (is_ajax : bool) : prog unit :=
  let content_path := path in
  '(path, query_string) <-
    match query_string with
    | None => lift (get_query_string_from_path path)
    | Some _ => Ret (path, query_string)
    end ;;
  '(filename, directory) <-
    lift (get_filename_from_path self path query_string is_ajax) ;;
  match filename with
  | None | Some EmptyString => Ret tt       (* cannot cache *)
  | Some filename =>
      content <-
        match content with
        | None | Some EmptyString => get_content_from_path self content_path
        | Some content => Ret content
        end ;;
      present <- os_path_exists directory ;;
      (if negb present
       then try_except (os_makedirs directory) any_exception
              (fun _ => Throw (StaticGeneratorException
                 ("Could not create the directory: " ++ percent_s directory)))
       else Ret tt) ;;;
      try_except
        ('(f, tmpname) <- tempfile_mkstemp directory ;;
         os_write f content ;;;
         os_close f ;;;
         os_chmod tmpname
           (Z.lor stat.S_IREAD (Z.lor stat.S_IWRITE (Z.lor stat.S_IWUSR
            (Z.lor stat.S_IRUSR (Z.lor stat.S_IWUSR
            (Z.lor stat.S_IRGRP stat.S_IROTH)))))) ;;;
         os_rename tmpname filename)
        any_exception
        (fun _ => Throw (StaticGeneratorException
           ("Could not create the file: " ++ filename)))
  end.

Definition recursive_delete_from_path (self : StaticGenerator)
    (path : string) : prog unit :=
  '(filename, directory) <-
    lift (get_filename_from_path self path (Some "") false) ;;
  shutil_rmtree directory.

Definition delete_from_path (self : StaticGenerator) (path : string)
    (is_ajax : bool) : prog unit :=
  '(path, query_string) <- lift (get_query_string_from_path path) ;;
  '(filename, directory) <-
    lift (get_filename_from_path self path query_string is_ajax) ;;
  try_except
    (present <- os_path_exists filename ;;
     if present then os_remove filename else Ret tt)
    any_exception
    (fun _ => Throw (StaticGeneratorException
       ("Could not delete file: " ++ percent_s filename))) ;;;
  try_except (os_rmdir directory) is_OSError (fun _ => Ret tt).

(** [[func(path) for path in resources]] *)
Fixpoint for_each {A : Type} (func : string -> prog A)
    (paths : list string) : prog (list A) :=
  match paths with
  | [] => Ret []
  | path :: rest =>
      r <- func path ;;
      rs <- for_each func rest ;;
      Ret (r :: rs)
  end.

Definition do_all {A : Type} (self : StaticGenerator)
    (func : string -> prog A) : prog (list A) :=
  for_each func (resources self).

Definition delete (self : StaticGenerator) : prog (list unit) :=
  do_all self (fun path => delete_from_path self path false).

Definition recursive_delete (self : StaticGenerator) : prog (list unit) :=
  do_all self (recursive_delete_from_path self).

Definition publish (self : StaticGenerator) : prog (list unit) :=
  do_all self (fun path => publish_from_path self path None None false).

End Generator.

(** ** Vocabulary of the specification *)

(** The error kinds of the specification.  In the code each of them is a
    [StaticGeneratorException]; the message tells them apart. *)
Definition MalformedPath (path : string) : exn :=
  StaticGeneratorException
    ("Path " ++ path ++ " has multiple query string values").

Definition RenderFailed (path : string) (err : exn) : exn :=
  StaticGeneratorException
    ("The requested page(" ++ dquote ++ path ++ dquote ++
     ") raised an exception. Static Generation failed. Error: " ++
     exn_str err).

Definition NonSuccessStatus (path : string) (code : Z) : exn :=
  StaticGeneratorException
    ("The requested page(" ++ dquote ++ path ++ dquote ++
     ") returned http code " ++ percent_d code ++
     ". Static Generation failed.").

Definition DirectoryCreateFailed (directory : option string) : exn :=
  StaticGeneratorException
    ("Could not create the directory: " ++ percent_s directory).

Definition FileWriteFailed (filename : string) : exn :=
  StaticGeneratorException ("Could not create the file: " ++ filename).

Definition FileDeleteFailed (filename : option string) : exn :=
  StaticGeneratorException ("Could not delete file: " ++ percent_s filename).

(** The path and query string [publish_from_path] maps: the raw path is
    split only when the caller passed no query string. *)
Definition split_unless_given (path : string) (query_string : option string)
  : result (string * option string) :=
  match query_string with
  | None => get_query_string_from_path path
  | Some _ => Ok (path, query_string)
  end.

(** A reply of [os.rmdir] that [delete_from_path] lets pass: success, or
    an [OSError], the class [os.rmdir] reports its failures with. *)
Definition tolerated (r : result unit) : bool :=
  match r with
  | Ok _ => true
  | Raise e => is_OSError e
  end.

(** The request [get_content_from_path] hands to the handler. *)
Definition request_for (self : StaticGenerator) (path : string)
    (parsed : ParseResult) : HttpRequest :=
  {| request_url := path;
     path_info := parsed_path parsed;
     GET := parsed_query parsed;
     META_SERVER_PORT := 80;
     META_SERVER_NAME := server_name self;
     META_REMOTE_ADDR := "127.0.0.1" |}.

(** The exception an event ended with, if it did. *)
Definition ev_raised (ev : event) : option exn :=
  match ev_reply ev with
  | Ok _ => None
  | Raise e => Some e
  end.

(** Calls that change no file: the handler, [os.stat], [os.makedirs]. *)
Definition changes_no_file (ev : event) : bool :=
  match ev_call ev with
  | DummyHandler _ | OsStat _ | OsMakedirs _ => true
  | _ => false
  end.

(** The mode [publish_from_path] gives the file: [rw-r--r--]. *)
Definition mode_644 : Z := 420.

(** The traces of a write through a temporary file: [mkstemp] in the
    target directory, one [write] of the whole content to the descriptor
    it returned, [close], [chmod] of the temporary name, and last the
    [rename] onto the final name.  Each step is made only after the one
    before it succeeded; the flag tells whether the rename succeeded. *)
Inductive write_then_rename (directory filename body : string)
  : list event -> bool -> Prop :=
| wr_mkstemp_failed (e : exn) :
    write_then_rename directory filename body
      [Event (TempfileMkstemp (Some directory)) (Raise e)] false
| wr_write_failed (fd : Z) (tmpname : string) (e : exn) :
    write_then_rename directory filename body
      [Event (TempfileMkstemp (Some directory)) (Ok (fd, tmpname));
       Event (OsWrite fd body) (Raise e)] false
| wr_close_failed (fd : Z) (tmpname : string) (n : Z) (e : exn) :
    write_then_rename directory filename body
      [Event (TempfileMkstemp (Some directory)) (Ok (fd, tmpname));
       Event (OsWrite fd body) (Ok n);
       Event (OsClose fd) (Raise e)] false
| wr_chmod_failed (fd : Z) (tmpname : string) (n : Z) (e : exn) :
    write_then_rename directory filename body
      [Event (TempfileMkstemp (Some directory)) (Ok (fd, tmpname));
       Event (OsWrite fd body) (Ok n);
       Event (OsClose fd) (Ok tt);
       Event (OsChmod tmpname mode_644) (Raise e)] false
| wr_rename (fd : Z) (tmpname : string) (n : Z) (r : result unit) :
    write_then_rename directory filename body
      [Event (TempfileMkstemp (Some directory)) (Ok (fd, tmpname));
       Event (OsWrite fd body) (Ok n);
       Event (OsClose fd) (Ok tt);
       Event (OsChmod tmpname mode_644) (Ok tt);
       Event (OsRename tmpname filename) r] (is_ok r).

(** The last two steps of [publish_from_path], the directory check and
    the write (lines 187 to 200), under a name for the proofs;
    [publish_from_path_ends_with_store] shows that the method ends with
    them. *)
Definition store (directory : option string) (filename content : string)
  : prog unit :=
  present <- os_path_exists directory ;;
  (if negb present
   then try_except (os_makedirs directory) any_exception
          (fun _ => Throw (DirectoryCreateFailed directory))
   else Ret tt) ;;;
  try_except
    ('(f, tmpname) <- tempfile_mkstemp directory ;;
     os_write f content ;;;
     os_close f ;;;
     os_chmod tmpname mode_644 ;;;
     os_rename tmpname filename)
    any_exception
    (fun _ => Throw (FileWriteFailed filename)).

(** The content is at hand after the calls [got]: the caller supplied
    it and no call was made, or the handler, called once with the request
    for the raw path, answered 200 with it. *)
Definition content_at_hand (urlparse : string -> result ParseResult)
    (self : StaticGenerator) (raw : string) (supplied : option string)
    (got : list event) (body : string) : Prop :=
  (truth supplied = true /\ supplied = Some body /\ got = []) \/
  (truth supplied = false /\
   exists parsed response,
     urlparse raw = Ok parsed /\
     status_code response = 200%Z /\
     got = [Event (DummyHandler (request_for self raw parsed)) (Ok response)] /\
     body = content response).

(** The directory [d] is there after the calls [ready]: [os.stat] found
    it, or [os.stat] failed with [os.error] and [os.makedirs] made it. *)
Definition directory_ready (d : string) (ready : list event) : Prop :=
  ready = [Event (OsStat d) (Ok tt)] \/
  exists e,
    is_OSError e = true /\
    ready = [Event (OsStat d) (Raise e); Event (OsMakedirs d) (Ok tt)].

(** The ways a publish of a cacheable path ends before its write, with
    the calls made and the exception raised: the URL does not parse, the
    handler raises, the handler answers another status than 200,
    [os.stat] of the directory raises something else than [os.error], or
    [os.makedirs] fails. *)
Inductive stops_before_write (urlparse : string -> result ParseResult)
    (self : StaticGenerator) (raw : string) (supplied : option string)
    (d : string) : list event -> result unit -> Prop :=
| stop_urlparse (e : exn) :
    truth supplied = false ->
    urlparse raw = Raise e ->
    stops_before_write urlparse self raw supplied d [] (Raise e)
| stop_render_raised (parsed : ParseResult) (err : exn) :
    truth supplied = false ->
    urlparse raw = Ok parsed ->
    stops_before_write urlparse self raw supplied d
      [Event (DummyHandler (request_for self raw parsed)) (Raise err)]
      (Raise (RenderFailed raw err))
| stop_status (parsed : ParseResult) (response : HttpResponse) :
    truth supplied = false ->
    urlparse raw = Ok parsed ->
    status_code response <> 200%Z ->
    stops_before_write urlparse self raw supplied d
      [Event (DummyHandler (request_for self raw parsed)) (Ok response)]
      (Raise (NonSuccessStatus raw (status_code response)))
| stop_stat (got : list event) (body : string) (e : exn) :
    content_at_hand urlparse self raw supplied got body ->
    is_OSError e = false ->
    stops_before_write urlparse self raw supplied d
      (got ++ [Event (OsStat d) (Raise e)])%list (Raise e)
| stop_makedirs (got : list event) (body : string) (e0 e : exn) :
    content_at_hand urlparse self raw supplied got body ->
    is_OSError e0 = true ->
    stops_before_write urlparse self raw supplied d
      (got ++ [Event (OsStat d) (Raise e0); Event (OsMakedirs d) (Raise e)])%list
      (Raise (DirectoryCreateFailed (Some d))).

(** What the calls [tr] of one publish with outcome [res] are, by the
    location of the path.
    - The path does not split or does not map: the exception is raised
      and no call is made.
    - The path cannot be cached (no filename): publish returns normally
      and no call is made.
    - The path maps to the filename [f]: the calls are calls that change
      no file, followed either by nothing, publish having stopped before
      its write with an exception, or by a write through a temporary
      file in the directory of [f], of the content at hand; then publish
      returns normally exactly when the rename succeeded, and raises
      "Could not create the file" otherwise. *)
Definition temporary_file_discipline (urlparse : string -> result ParseResult)
    (self : StaticGenerator) (raw : string)
    (query_string supplied : option string) (is_ajax : bool)
    (res : result unit) (tr : list event) : Prop :=
  match split_unless_given raw query_string with
  | Raise e => res = Raise e /\ tr = []
  | Ok (p, q) =>
      match get_filename_from_path self p q is_ajax with
      | Raise e => res = Raise e /\ tr = []
      | Ok (None, _) | Ok (Some EmptyString, _) => res = Ok tt /\ tr = []
      | Ok (Some f, _) =>
          let d := os_path.dirname f in
          exists pre ws,
            tr = (pre ++ ws)%list /\
            forallb changes_no_file pre = true /\
            ((ws = [] /\
              stops_before_write urlparse self raw supplied d pre res) \/
             (exists got ready body,
                 pre = (got ++ ready)%list /\
                 content_at_hand urlparse self raw supplied got body /\
                 directory_ready d ready /\
                 write_then_rename d f body ws (is_ok res) /\
                 (res = Ok tt \/ res = Raise (FileWriteFailed f))))
      end
  end.

(** The three batch operations, what each does to one path, and the
    method that runs it over the resources. *)
Inductive operation : Type := Publish | Delete | RecursiveDelete.

Definition from_path (urlparse : string -> result ParseResult)
    (op : operation) (self : StaticGenerator) (path : string) : prog unit :=
  match op with
  | Publish => publish_from_path urlparse self path None None false
  | Delete => delete_from_path self path false
  | RecursiveDelete => recursive_delete_from_path self path
  end.

Definition batch (urlparse : string -> result ParseResult)
    (op : operation) (self : StaticGenerator) : prog (list unit) :=
  match op with
  | Publish => publish urlparse self
  | Delete => delete self
  | RecursiveDelete => recursive_delete self
  end.

(** ** Resources, the Django settings and the constructor *)

(** A model instance, by what its [get_absolute_url()] returns. *)
Record Model : Type := { get_absolute_url : result string }.

(** A queryset, by the instances that iterating over it yields. *)
Record QuerySet : Type := { iterate : list Model }.

(** A manager, by the queryset its [all()] returns. *)
Record Manager : Type := { all : QuerySet }.

(** A model class, by its default manager. *)
Record ModelBase : Type := { _default_manager : Manager }.

(** A resource, by the [isinstance] test it passes. *)
Inductive resource : Type :=
| a_string (str_of : result string)   (* str, unicode or Promise, by what
                                         str(resource) gives *)
| a_Model (m : Model)
| a_ModelBase (c : ModelBase)
| a_Manager (m : Manager)
| a_QuerySet (q : QuerySet)
| another.                            (* an object of any other type *)

(** [[obj.get_absolute_url() for obj in resource]] *)
Fixpoint absolute_urls (objs : list Model) : result (list string) :=
  match objs with
  | [] => Ok []
  | obj :: rest =>
      match get_absolute_url obj with
      | Raise e => Raise e
      | Ok url =>
          match absolute_urls rest with
          | Raise e => Raise e
          | Ok urls => Ok (url :: urls)
          end
      end
  end.

(** One turn of the loop of [extract_resources]: what it appends to
    [extracted]. *)
Definition extract_one (resource : resource) : result (list string) :=
  match resource with
  | a_string str_of =>
      match str_of with
      | Raise e => Raise e
      | Ok s => Ok [s]
      end
  | a_Model m =>
      match get_absolute_url m with
      | Raise e => Raise e
      | Ok url => Ok [url]
      end
  | _ =>
      let resource := match resource with
                      | a_ModelBase c => a_Manager (_default_manager c)
                      | _ => resource
                      end in
      let resource := match resource with
                      | a_Manager m => a_QuerySet (all m)
                      | _ => resource
                      end in
      match resource with
      | a_QuerySet q => absolute_urls (iterate q)
      | _ => Ok []
      end
  end.

(** The loop of [extract_resources], from the list built so far. *)
Fixpoint extract_loop (extracted : list string) (resources : list resource)
  : result (list string) :=
  match resources with
  | [] => Ok extracted
  | resource :: rest =>
      match extract_one resource with
      | Raise e => Raise e
      | Ok added => extract_loop (extracted ++ added)%list rest
      end
  end.

Definition extract_resources (resources : list resource)
  : result (list string) :=
  extract_loop [] resources.

(** The two settings the module reads; [None] is an attribute that is not
    set, for which [getattr] raises [AttributeError]. *)
Record Settings : Type := {
  SERVER_NAME : option string;
  WEB_ROOT : option string
}.

(** What the constructor reads from Django: the (configured) settings
    and what [Site.objects.get_current().domain] gives. *)
Record Django : Type := {
  settings : Settings;
  current_site_domain : result string
}.

Definition localhost_warning : string :=
  "*** Warning ***: Using " ++ dquote ++ "localhost" ++ dquote ++
  " for domain name. Use django.contrib.sites or set settings.SERVER_NAME to disable this warning.".

(** [get_server_name]: the name, and the lines it prints. *)
Definition get_server_name (django : Django) : string * list string :=
  match SERVER_NAME (settings django) with
  | Some name => (name, [])
  | None =>
      match current_site_domain django with
      | Ok domain => (domain, [])
      | Raise _ => ("localhost", [localhost_warning])
      end
  end.

(** The constructor: the lines printed, and the object or the exception. *)
Definition __init__ (django : Django) (resources : list resource)
  : list string * result StaticGenerator :=
  match extract_resources resources with
  | Raise e => ([], Raise e)
  | Ok extracted =>
      let '(name, printed) := get_server_name django in
      match WEB_ROOT (settings django) with
      | Some root =>
          (printed,
           Ok {| resources := extracted; server_name := name;
                 web_root := root |})
      | None =>
          (printed,
           Raise (StaticGeneratorException
                    "You must specify WEB_ROOT in settings.py"))
      end
  end.

(** The functions of the module: the lines printed while the generator
    is built, and the calls that follow. *)
Module staticgenerator.

Definition quick_publish (urlparse : string -> result ParseResult)
    (django : Django) (resources : list resource)
  : list string * prog (list unit) :=
  let '(printed, made) := __init__ django resources in
  (printed, match made with
            | Ok self => publish urlparse self
            | Raise e => Throw e
            end).

Definition quick_delete (django : Django) (resources : list resource)
  : list string * prog (list unit) :=
  let '(printed, made) := __init__ django resources in
  (printed, match made with
            | Ok self => delete self
            | Raise e => Throw e
            end).

Definition recursive_delete (django : Django) (resources : list resource)
  : list string * prog (list unit) :=
  let '(printed, made) := __init__ django resources in
  (printed, match made with
            | Ok self => recursive_delete self
            | Raise e => Throw e
            end).

End staticgenerator.

(** The location [publish_from_path] (called without a query string)
    and [delete_from_path] compute for a raw path: the split, then the
    mapping. *)
Definition cache_location (self : StaticGenerator) (raw : string)
    (is_ajax : bool) : result (option string * option string) :=
  match get_query_string_from_path raw with
  | Raise e => Raise e
  | Ok (path, query_string) =>
      get_filename_from_path self path query_string is_ajax
  end.

(** The text a query string adds to a raw path. *)
Definition query_suffix (query_string : option string) : string :=
  match query_string with
  | Some q => "?" ++ q
  | None => ""
  end.

(** Whether an event is a call of the kind given. *)
Definition is_handler_call (ev : event) : bool :=
  match ev_call ev with
  | DummyHandler _ => true
  | _ => false
  end.

Definition is_removal (ev : event) : bool :=
  match ev_call ev with
  | OsRemove _ | OsRmdir _ | ShutilRmtree _ => true
  | _ => false
  end.

(** The data of the [os.write] calls of a trace. *)
Fixpoint written (tr : list event) : list string :=
  match tr with
  | [] => []
  | ev :: rest =>
      match ev_call ev with
      | OsWrite _ data => data :: written rest
      | _ => written rest
      end
  end.

(** The destinations of the [os.rename] calls of a trace. *)
Fixpoint renamed_onto (tr : list event) : list string :=
  match tr with
  | [] => []
  | ev :: rest =>
      match ev_call ev with
      | OsRename _ dst => dst :: renamed_onto rest
      | _ => renamed_onto rest
      end
  end.

(** Whether a call is one of the three [delete_from_path] may make for
    the file [f] in the directory [d]. *)
Definition deletes_only (f d : string) (ev : event) : bool :=
  match ev_call ev with
  | OsStat p | OsRemove p => (p =? f)%string
  | OsRmdir p => (p =? d)%string
  | _ => false
  end.

(** ** A small simulated file system

    One environment among all those the theorems range over; the
    examples run the generator against it. *)

Module SimFS.

Record world : Type := {
  files : list (string * string);     (* regular files and their bytes *)
  dirs : list string;                 (* directories *)
  open_files : list (Z * string);     (* open descriptors and their files *)
  next_tmp : nat                      (* counter behind temporary names *)
}.

Definition ENOENT : exn :=
  mk_exn OSErrorClass "[Errno 2] No such file or directory".
Definition EEXIST : exn := mk_exn OSErrorClass "[Errno 17] File exists".
Definition ENOTEMPTY : exn :=
  mk_exn OSErrorClass "[Errno 39] Directory not empty".
Definition EBADF : exn := mk_exn OSErrorClass "[Errno 9] Bad file descriptor".
Definition EACCES : exn := mk_exn OSErrorClass "[Errno 13] Permission denied".

Fixpoint lookup {A : Type} (k : string) (l : list (string * A)) : option A :=
  match l with
  | [] => None
  | (k', v) :: rest => if (k' =? k)%string then Some v else lookup k rest
  end.

Definition drop {A : Type} (k : string) (l : list (string * A))
  : list (string * A) :=
  filter (fun kv => negb (fst kv =? k)%string) l.

Definition is_dir (w : world) (p : string) : bool :=
  existsb (String.eqb p) (dirs w).

Definition fd_name (w : world) (fd : Z) : option string :=
  match find (fun e => (fst e =? fd)%Z) (open_files w) with
  | Some (_, name) => Some name
  | None => None
  end.

Definition with_files (w : world) (fs : list (string * string)) : world :=
  {| files := fs; dirs := dirs w; open_files := open_files w;
     next_tmp := next_tmp w |}.

Definition sim (pages : string -> result HttpResponse) : environment world :=
  fun w c =>
    match c as c0 return result (reply c0) * world with
    | DummyHandler request => (pages (request_url request), w)
    | OsStat p =>
        match lookup p (files w) with
        | Some _ => (Ok tt, w)
        | None => if is_dir w p then (Ok tt, w) else (Raise ENOENT, w)
        end
    | OsMakedirs p =>
        if is_dir w p then (Raise EEXIST, w)
        else (Ok tt, {| files := files w; dirs := p :: dirs w;
                        open_files := open_files w;
                        next_tmp := next_tmp w |})
    | TempfileMkstemp dir =>
        let d := match dir with Some d => d | None => "/tmp" end in
        if is_dir w d then
          let name := os_path.join d
                        ("tmp" ++ percent_d (Z.of_nat (next_tmp w))) in
          let fd := (3 + Z.of_nat (next_tmp w))%Z in
          (Ok (fd, name),
           {| files := (name, "") :: files w; dirs := dirs w;
              open_files := (fd, name) :: open_files w;
              next_tmp := S (next_tmp w) |})
        else (Raise ENOENT, w)
    | OsWrite fd data =>
        match fd_name w fd with
        | Some name =>
            let old := match lookup name (files w) with
                       | Some b => b
                       | None => ""
                       end in
            (Ok (Z.of_nat (String.length data)),
             with_files w ((name, old ++ data) :: drop name (files w)))
        | None => (Raise EBADF, w)
        end
    | OsClose fd =>
        match fd_name w fd with
        | Some _ =>
            (Ok tt, {| files := files w; dirs := dirs w;
                       open_files :=
                         filter (fun e => negb (fst e =? fd)%Z) (open_files w);
                       next_tmp := next_tmp w |})
        | None => (Raise EBADF, w)
        end
    | OsChmod p _ =>
        match lookup p (files w) with
        | Some _ => (Ok tt, w)
        | None => (Raise ENOENT, w)
        end
    | OsRename src dst =>
        match lookup src (files w) with
        | Some b =>
            (Ok tt, with_files w ((dst, b) :: drop dst (drop src (files w))))
        | None => (Raise ENOENT, w)
        end
    | OsRemove p =>
        match lookup p (files w) with
        | Some _ => (Ok tt, with_files w (drop p (files w)))
        | None => (Raise ENOENT, w)
        end
    | OsRmdir p =>
        if negb (is_dir w p) then (Raise ENOENT, w)
        else if existsb (fun kv => (os_path.dirname (fst kv) =? p)%string)
                        (files w)
        then (Raise ENOTEMPTY, w)
        else (Ok tt, {| files := files w;
                        dirs := filter (fun d => negb (d =? p)%string) (dirs w);
                        open_files := open_files w;
                        next_tmp := next_tmp w |})
    | ShutilRmtree p =>
        (Ok tt,
         {| files := filter (fun kv => negb (prefix (p ++ "/") (fst kv)))
                       (files w);
            dirs := filter (fun d => negb ((d =? p)%string
                                           || prefix (p ++ "/") d)) (dirs w);
            open_files := open_files w;
            next_tmp := next_tmp w |})
    end.

(** An environment in which the calls selected by [fault] raise. *)
Definition failing {W : Type} (fault : syscall -> option exn)
    (E : environment W) : environment W :=
  fun w c =>
    match fault c with
    | Some e => (Raise e, w)
    | None => E w c
    end.

Definition empty_root (root : string) : world :=
  {| files := []; dirs := [root]; open_files := []; next_tmp := 0 |}.

(** Every page renders with status 200 and the URL as its body. *)
Definition echo_pages (url : string) : result HttpResponse :=
  Ok {| status_code := 200; content := "<html>" ++ url ++ "</html>" |}.

(** A [urlparse] for plain paths: the text before the first [?] and the
    text after it. *)
Definition urlparse (url : string) : result ParseResult :=
  Ok {| parsed_path := before qmark url; parsed_query := after qmark url |}.

Definition site (root : string) (paths : list string) : StaticGenerator :=
  {| resources := paths; server_name := "localhost"; web_root := root |}.

(** A path of 301 bytes. *)
Definition long_path : string :=
  "/" ++ string_of_list_ascii (repeat "a"%char 300).

(** The same with a slash at the end, and a short path holding the
    byte 0xE9. *)
Definition long_dir : string := long_path ++ "/".
Definition latin_path : string := "/caf" ++ String (ascii_of_nat 233) "".
Definition latin_dir : string := latin_path ++ "/".

(** A world holding the given files in the given directories. *)
Definition holding (fs : list (string * string)) (ds : list string) : world :=
  {| files := fs; dirs := ds; open_files := []; next_tmp := 0 |}.

(** Every [os.remove] is refused. *)
Definition deny_remove (c : syscall) : option exn :=
  match c with
  | OsRemove _ => Some EACCES
  | _ => None
  end.

(** Pages that answer 404, and pages whose view raises. *)
Definition missing_pages (url : string) : result HttpResponse :=
  Ok {| status_code := 404; content := "not found" |}.

Definition broken_pages (url : string) : result HttpResponse :=
  Raise (mk_exn ValueErrorClass "bad view").

(** The generator, environment and names the examples use. *)
Definition s0 : StaticGenerator := site "/var/www" [].
Definition E0 : environment world := sim echo_pages.
Definition post_file : string := "/var/www/post/1/index.html%3F".
Definition post_dir : string := "/var/www/post/1".
Definition other_file : string := "/var/www/post/1/other".

(** Publishing one page into an empty web root. *)
Definition example_publish_run : result unit * world * list event :=
  run E0 (publish_from_path urlparse s0 "/post/1/?x=1" None None false)
    (empty_root "/var/www").

(** A batch whose second path is malformed, and the run of the part of
    the batch before it. *)
Definition blog : StaticGenerator :=
  site "/var/www" ["/a"; "/b?x?y"; "/c"].

Definition example_first_path_run : result (list unit) * world * list event :=
  run E0 (for_each (from_path urlparse Publish blog) ["/a"])
    (empty_root "/var/www").

End SimFS.

(** ** Settings and runs for further examples *)

Module Fixtures.

Import SimFS.

(** A project with [WEB_ROOT] set, no [SERVER_NAME] and no sites
    framework; and one without [WEB_ROOT]. *)
Definition configured : Django :=
  {| settings := {| SERVER_NAME := None; WEB_ROOT := Some "/var/www" |};
     current_site_domain :=
       Raise (mk_exn (OtherExceptionClass "ImportError")
                "No module named sites.models") |}.

Definition unconfigured : Django :=
  {| settings := {| SERVER_NAME := Some "example.org"; WEB_ROOT := None |};
     current_site_domain := Ok "example.org" |}.

(** A model class with two objects. *)
Definition Post : ModelBase :=
  {| _default_manager :=
       {| all := {| iterate := [ {| get_absolute_url := Ok "/post/1/" |};
                                 {| get_absolute_url := Ok "/post/2/" |} ] |} |} |}.

(** Publishing a page with content given by the caller. *)
Definition supplied_run : result unit * world * list event :=
  run E0 (publish_from_path urlparse s0 "/post/1/" None (Some "<p>hi</p>") false)
    (empty_root "/var/www").

(** Deleting the page that was published. *)
Definition delete_run : result unit * world * list event :=
  run E0 (delete_from_path s0 "/post/1/" false)
    (holding [(post_file, "x")] [post_dir; "/var/www"]).

End Fixtures.

(** ** Facts about byte strings *)

Section StringFacts.

Lemma append_nil_r (s : string) : s ++ "" = s.
Proof. induction s as [|a s IH]; simpl; [reflexivity | now rewrite IH]. Qed.

Lemma append_assoc (a b c : string) : (a ++ b) ++ c = a ++ (b ++ c).
Proof. induction a as [|x a IH]; simpl; [reflexivity | now rewrite IH]. Qed.

Lemma length_append (a b : string) :
  String.length (a ++ b) = String.length a + String.length b.
Proof. induction a as [|x a IH]; simpl; [reflexivity | now rewrite IH]. Qed.

Lemma append_inj_l (a b c : string) : a ++ b = a ++ c -> b = c.
Proof.
  induction a as [|x a IH]; simpl; intros H; [exact H|].
  injection H as H. now apply IH.
Qed.

Lemma append_neq_self (a b : string) : b <> "" -> a ++ b <> a.
Proof.
  intros Hb H. apply (f_equal String.length) in H.
  rewrite length_append in H.
  destruct b; [now apply Hb | simpl in H; lia].
Qed.

Lemma startswith_cons (a : ascii) (t : string) (c : ascii) :
  startswith (String a t) (String c "") = Ascii.eqb c a.
Proof.
  unfold startswith; simpl.
  destruct (ascii_dec c a) as [->|Hn].
  - rewrite Ascii.eqb_refl. now destruct t.
  - apply Ascii.eqb_neq in Hn. now rewrite Hn.
Qed.

Lemma endswith_app (a b : string) : endswith (a ++ b) b = true.
Proof.
  induction a as [|x a IH]; simpl.
  - destruct b as [|y b]; [reflexivity|].
    cbn [append endswith]. now rewrite String.eqb_refl.
  - rewrite IH. apply orb_true_r.
Qed.

Lemma endswith_app_r (a b c : string) :
  endswith b c = true -> endswith (a ++ b) c = true.
Proof.
  intros H. induction a as [|x a IH]; simpl; [exact H|].
  rewrite IH. apply orb_true_r.
Qed.

(** A string ends with [suffix] exactly when it is some prefix followed
    by [suffix]. *)
Lemma endswith_iff (s suffix : string) :
  endswith s suffix = true <-> exists pre, s = pre ++ suffix.
Proof.
  split.
  - induction s as [|x s IH]; cbn [endswith].
    + rewrite orb_false_r. intros H. apply String.eqb_eq in H.
      exists "". now subst.
    + intros H. apply orb_true_iff in H. destruct H as [H|H].
      * apply String.eqb_eq in H. exists "". now rewrite <- H.
      * destruct (IH H) as [pre ->]. now exists (String x pre).
  - intros [pre ->]. apply endswith_app.
Qed.

Lemma endswith_char_cons (x : ascii) (t : string) (c : ascii) :
  t <> "" -> endswith (String x t) (String c "") = endswith t (String c "").
Proof.
  intros Ht. cbn [endswith].
  destruct t as [|y t]; [now elim Ht|].
  replace (String x (String y t) =? String c "") with false; [reflexivity|].
  symmetry. apply String.eqb_neq. congruence.
Qed.

Lemma endswith_char_single (x c : ascii) :
  endswith (String x "") (String c "") = Ascii.eqb x c.
Proof.
  cbn [endswith]. rewrite orb_false_r.
  destruct (ascii_dec x c) as [->|Hn].
  - now rewrite Ascii.eqb_refl, String.eqb_refl.
  - assert (String x "" <> String c "") as Hs by congruence.
    apply String.eqb_neq in Hs. apply Ascii.eqb_neq in Hn.
    now rewrite Hs, Hn.
Qed.

(** Stripping commutes with appending text that does not begin with the
    stripped character. *)
Lemma lstrip_app (c : ascii) (a b : string) :
  startswith b (String c "") = false ->
  lstrip c (a ++ b) = lstrip c a ++ b.
Proof.
  intros Hb. induction a as [|x a IH]; simpl.
  - destruct b as [|y b]; [reflexivity|].
    rewrite startswith_cons in Hb. simpl.
    rewrite Ascii.eqb_sym. now rewrite Hb.
  - destruct (Ascii.eqb x c); [exact IH | reflexivity].
Qed.

(** A non-empty string that does not end in [c] keeps a non-empty rest
    after stripping, so anything may be appended. *)
Lemma lstrip_app_not_ending (c : ascii) (a b : string) :
  a <> "" -> endswith a (String c "") = false ->
  lstrip c (a ++ b) = lstrip c a ++ b.
Proof.
  induction a as [|x a IH]; intros Hne Hend; [now elim Hne|].
  destruct a as [|y a].
  - rewrite endswith_char_single in Hend. simpl. now rewrite Hend.
  - rewrite endswith_char_cons in Hend by discriminate.
    change (String x (String y a) ++ b) with (String x (String y a ++ b)).
    cbn [lstrip]. destruct (Ascii.eqb x c); [|reflexivity].
    apply IH; [discriminate | exact Hend].
Qed.

Lemma lstrip_not_startswith (c : ascii) (s : string) :
  startswith (lstrip c s) (String c "") = false.
Proof.
  induction s as [|x s IH]; simpl; [reflexivity|].
  destruct (Ascii.eqb x c) eqn:E; [exact IH|].
  rewrite startswith_cons. now rewrite Ascii.eqb_sym.
Qed.

Lemma startswith_app_false (a b : string) (c : ascii) :
  a <> "" -> startswith a (String c "") = false ->
  startswith (a ++ b) (String c "") = false.
Proof.
  destruct a as [|x a]; intros Hne H; [now elim Hne|].
  change (String x a ++ b) with (String x (a ++ b)).
  rewrite startswith_cons in *. exact H.
Qed.

End StringFacts.

(** ** Facts about splitting, encoding and joining *)

Section MapperFacts.

Lemma before_no_sep (c : ascii) (s : string) : count c s = 0 -> before c s = s.
Proof.
  induction s as [|x s IH]; simpl; [reflexivity|].
  destruct (Ascii.eqb x c); [discriminate|].
  intros H. now rewrite IH.
Qed.

Lemma count_after (c : ascii) (s : string) (n : nat) :
  count c s = S n -> count c (after c s) = n.
Proof.
  induction s as [|x s IH]; simpl; [discriminate|].
  destruct (Ascii.eqb x c); simpl; [congruence | exact IH].
Qed.

Lemma count_before (c : ascii) (s : string) : count c (before c s) = 0.
Proof.
  induction s as [|x s IH]; simpl; [reflexivity|].
  destruct (Ascii.eqb x c) eqn:E; simpl; [reflexivity|].
  now rewrite E.
Qed.

(** With at least one separator, the string is the part before the first
    one, the separator, and the part after it. *)
Lemma before_sep_after (c : ascii) (s : string) :
  count c s <> 0 -> s = before c s ++ String c (after c s).
Proof.
  induction s as [|x s IH]; simpl; [congruence|].
  destruct (Ascii.eqb x c) eqn:E; simpl.
  - apply Ascii.eqb_eq in E. now subst.
  - intros H. now rewrite <- IH.
Qed.

Lemma split_unfold (c : ascii) (s : string) :
  split c s =
  before c s :: match count c s with
                | 0 => []
                | S _ => split c (after c s)
                end.
Proof.
  induction s as [|x s IH]; simpl; [reflexivity|].
  destruct (Ascii.eqb x c); simpl; [reflexivity|].
  now rewrite IH.
Qed.

Lemma first_non_ascii_None (pos : nat) (s : string) :
  first_non_ascii pos s = None <-> is_ascii s = true.
Proof.
  revert pos. induction s as [|x s IH]; intros pos; simpl; [tauto|].
  destruct (nat_of_ascii x <? 128)%nat; simpl; [apply IH|].
  split; discriminate.
Qed.

Lemma first_non_ascii_app (pos : nat) (a b : string) (hit : nat * ascii) :
  first_non_ascii pos a = Some hit -> first_non_ascii pos (a ++ b) = Some hit.
Proof.
  revert pos. induction a as [|x a IH]; intros pos; simpl; [discriminate|].
  destruct (nat_of_ascii x <? 128)%nat; [apply IH | trivial].
Qed.

Lemma is_ascii_app (a b : string) :
  is_ascii (a ++ b) = is_ascii a && is_ascii b.
Proof.
  induction a as [|x a IH]; simpl; [reflexivity|].
  now rewrite IH, andb_assoc.
Qed.

Lemma encode_utf8_ascii (s : string) : is_ascii s = true -> encode_utf8 s = Ok s.
Proof.
  intros H. unfold encode_utf8.
  apply (first_non_ascii_None 0) in H. now rewrite H.
Qed.

Lemma encode_utf8_Ok (s f : string) :
  encode_utf8 s = Ok f -> f = s /\ is_ascii s = true.
Proof.
  unfold encode_utf8. destruct (first_non_ascii 0 s) as [[pos b]|] eqn:E.
  - discriminate.
  - intros H. injection H as <-. split; [reflexivity|].
    now apply (first_non_ascii_None 0).
Qed.

Lemma join_relative (root b : string) :
  startswith b "/" = false -> os_path.join root b = root_prefix root ++ b.
Proof.
  intros H. unfold os_path.join, root_prefix. rewrite H.
  destruct ((root =? "") || endswith root "/"); [reflexivity|].
  now rewrite append_assoc.
Qed.

Lemma join_lstrip (root s : string) :
  os_path.join root (lstrip slash s) = root_prefix root ++ lstrip slash s.
Proof. apply join_relative, lstrip_not_startswith. Qed.

(** The code's chain of conditional appends builds [cache_name]. *)
Lemma get_filename_from_path_cache_name (self : StaticGenerator)
    (path : string) (query_string : option string) (is_ajax : bool) :
  get_filename_from_path self path query_string is_ajax =
  match encode_utf8 (cache_name (web_root self) path query_string is_ajax) with
  | Raise e => Raise e
  | Ok filename =>
      if (255 <? String.length filename)%nat then Ok (None, None)
      else Ok (Some filename, Some (os_path.dirname filename))
  end.
Proof.
  unfold get_filename_from_path, cache_name, index_segment, query_segment,
    ajax_segment.
  destruct (endswith path "/"), query_string as [[|q0 q]|], is_ajax;
    rewrite ?append_nil_r, ?append_assoc; reflexivity.
Qed.

End MapperFacts.

(** ** The path mapper *)

Section Mapper.

Variable self : StaticGenerator.

Lemma lstrip_nonempty (c : ascii) (a : string) :
  a <> "" -> endswith a (String c "") = false -> lstrip c a <> "".
Proof.
  induction a as [|x a IH]; intros Hne Hend; [now elim Hne|].
  destruct a as [|y a].
  - rewrite endswith_char_single in Hend. simpl. rewrite Hend. discriminate.
  - rewrite endswith_char_cons in Hend by discriminate.
    cbn [lstrip]. destruct (Ascii.eqb x c); [|discriminate].
    apply IH; [discriminate | exact Hend].
Qed.

(** The AJAX name is the plain name followed by [,ajax]. *)
Lemma cache_name_ajax (root path : string) (query_string : option string) :
  cache_name root path query_string true =
  cache_name root path query_string false ++ ",ajax".
Proof.
  unfold cache_name. cbn [ajax_segment].
  rewrite append_nil_r, !join_lstrip.
  rewrite <- !append_assoc, lstrip_app by reflexivity.
  now rewrite !append_assoc.
Qed.

(** What the mapper can return: an exception from the encoding, no
    location, or a name together with its directory. *)
Lemma get_filename_from_path_cases (path : string)
    (query_string : option string) (is_ajax : bool) :
  let name := cache_name (web_root self) path query_string is_ajax in
  (is_ascii name = false /\
   exists e, get_filename_from_path self path query_string is_ajax = Raise e) \/
  (is_ascii name = true /\ 255 < String.length name /\
   get_filename_from_path self path query_string is_ajax = Ok (None, None)) \/
  (is_ascii name = true /\ String.length name <= 255 /\
   get_filename_from_path self path query_string is_ajax =
     Ok (Some name, Some (os_path.dirname name))).
Proof.
  intros name. rewrite get_filename_from_path_cache_name. fold name.
  destruct (is_ascii name) eqn:Ha.
  - right. rewrite (encode_utf8_ascii _ Ha).
    destruct (255 <? String.length name)%nat eqn:Hl.
    + left. apply Nat.ltb_lt in Hl. auto.
    + right. apply Nat.ltb_ge in Hl. auto.
  - left. split; [reflexivity|].
    unfold encode_utf8.
    destruct (first_non_ascii 0 name) as [[pos b]|] eqn:E.
    + eauto.
    + apply first_non_ascii_None in E. congruence.
Qed.

(** C1, as amended: a path ending in [/], mapped without query string
    and without the AJAX flag, yields a filename ending in the literal
    text [index.html%3F] (percent sign, digit 3, letter F; not a
    question mark), provided the composed name is ASCII and at most 255
    bytes long. *)
Theorem index_document_suffix (path : string) :
  endswith path "/" = true ->
  let name :=
    os_path.join (web_root self) (lstrip slash (path ++ "index.html%3F")) in
  is_ascii name = true ->
  String.length name <= 255 ->
  get_filename_from_path self path None false =
    Ok (Some name, Some (os_path.dirname name)) /\
  endswith name "index.html%3F" = true.
Proof.
  intros Hend name Hascii Hlen.
  assert (Hname : cache_name (web_root self) path None false = name).
  { unfold cache_name, index_segment. rewrite Hend. reflexivity. }
  split.
  - rewrite get_filename_from_path_cache_name, Hname.
    rewrite (encode_utf8_ascii _ Hascii).
    apply Nat.ltb_ge in Hlen. now rewrite Hlen.
  - unfold name. rewrite join_lstrip, lstrip_app by reflexivity.
    rewrite <- append_assoc. apply endswith_app.
Qed.

(** C4: the raw path is returned whole with no query string when it
    holds no [?]; it is cut at its only [?] when it holds exactly one;
    with two or more the call raises [StaticGeneratorException] naming
    the path. *)
Theorem get_query_string_from_path_by_count (path : string) :
  get_query_string_from_path path =
  match count qmark path with
  | 0 => Ok (path, None)
  | 1 => Ok (before qmark path, Some (after qmark path))
  | _ => Raise (MalformedPath path)
  end.
Proof.
  unfold get_query_string_from_path. cbv zeta.
  rewrite split_unfold.
  destruct (count qmark path) as [|[|n]] eqn:Hc.
  - cbn. now rewrite before_no_sep.
  - rewrite split_unfold, (count_after _ _ _ Hc). cbn.
    rewrite (before_no_sep qmark (after qmark path)); [reflexivity|].
    exact (count_after _ _ _ Hc).
  - rewrite split_unfold, (count_after _ _ _ Hc).
    rewrite split_unfold. reflexivity.
Qed.

(** C7, as amended: whenever the mapping without the AJAX flag yields a
    filename, the mapping of the same path and query string with the
    flag is different from it; when the name without the flag is over
    255 bytes, both mappings are the same "no location". *)
Theorem ajax_mapping_differs (path : string) (query_string : option string) :
  (forall f d,
      get_filename_from_path self path query_string false = Ok (Some f, d) ->
      get_filename_from_path self path query_string true <>
      get_filename_from_path self path query_string false) /\
  (get_filename_from_path self path query_string false = Ok (None, None) ->
   get_filename_from_path self path query_string true = Ok (None, None)).
Proof.
  pose proof (get_filename_from_path_cases path query_string false) as Hp.
  pose proof (get_filename_from_path_cases path query_string true) as Ha.
  cbv zeta in Hp, Ha. rewrite cache_name_ajax in Ha.
  set (name := cache_name (web_root self) path query_string false) in *.
  rewrite is_ascii_app, length_append in Ha. cbn [String.length] in Ha.
  split.
  - intros f d Hf.
    destruct Hp as [[_ [e Hp]]|[[_ [_ Hp]]|[_ [_ Hp]]]]; try congruence.
    destruct Ha as [[_ [e Ha]]|[[_ [_ Ha]]|[_ [_ Ha]]]];
      rewrite Ha, Hp; try discriminate.
    intros H. injection H as H _.
    now apply append_neq_self in H.
  - intros Hnone.
    destruct Hp as [[_ [e Hp]]|[[Hasc [Hlen _]]|[_ [_ Hp]]]]; try congruence.
    destruct Ha as [[Ha _]|[[_ [_ Ha]]|[_ [Ha _]]]].
    + rewrite Hasc in Ha. discriminate.
    + exact Ha.
    + lia.
Qed.

(** C9, as amended: for a non-empty path not ending in [/] and a
    non-empty query string, the mapping without the AJAX flag yields
    the web root joined with the path, leading slashes stripped,
    followed at once by the query string, provided that name is ASCII
    and at most 255 bytes long. *)
Theorem query_string_appended_verbatim (p q : string) :
  p <> "" ->
  endswith p "/" = false ->
  q <> "" ->
  let name := os_path.join (web_root self) (lstrip slash p) ++ q in
  is_ascii name = true ->
  String.length name <= 255 ->
  get_filename_from_path self p (Some q) false =
    Ok (Some name, Some (os_path.dirname name)).
Proof.
  intros Hp Hend Hq name Hascii Hlen.
  assert (Hname : cache_name (web_root self) p (Some q) false = name).
  { unfold cache_name, index_segment, name. rewrite Hend.
    cbn [query_segment ajax_segment append]. rewrite append_nil_r.
    rewrite lstrip_app_not_ending by assumption.
    rewrite join_lstrip, join_relative.
    - now rewrite append_assoc.
    - apply startswith_app_false.
      + now apply lstrip_nonempty.
      + apply lstrip_not_startswith. }
  rewrite get_filename_from_path_cache_name, Hname.
  rewrite (encode_utf8_ascii _ Hascii).
  apply Nat.ltb_ge in Hlen. now rewrite Hlen.
Qed.

(** First half of C3: a composed name of more than 255 bytes maps to
    "no location", not to an exception. *)
Lemma oversized_name_has_no_location (path : string)
    (query_string : option string) (is_ajax : bool) (f : string) :
  encode_utf8 (cache_name (web_root self) path query_string is_ajax) = Ok f ->
  255 < String.length f ->
  get_filename_from_path self path query_string is_ajax = Ok (None, None).
Proof.
  intros Henc Hlen. rewrite get_filename_from_path_cache_name, Henc.
  apply Nat.ltb_lt in Hlen. now rewrite Hlen.
Qed.

End Mapper.

(** ** Running command trees *)

Section RunFacts.

Context {W : Type} (E : environment W).

Lemma run_bind {A B : Type} (p : prog A) (f : A -> prog B) (w : W) :
  run E (bind p f) w =
  match run E p w with
  | (Ok a, w1, t1) =>
      let '(r, w2, t2) := run E (f a) w1 in (r, w2, (t1 ++ t2)%list)
  | (Raise e, w1, t1) => (Raise e, w1, t1)
  end.
Proof.
  revert w. induction p as [a|e|c k IH]; intros w; simpl.
  - now destruct (run E (f a) w) as [[r w2] t2].
  - reflexivity.
  - destruct (E w c) as [r w1]. rewrite IH.
    destruct (run E (k r) w1) as [[[a|e] w2] t2]; [|reflexivity].
    now destruct (run E (f a) w2) as [[r' w3] t3].
Qed.

Lemma run_try_except {A : Type} (p : prog A) (catches : exn -> bool)
    (handler : exn -> prog A) (w : W) :
  run E (try_except p catches handler) w =
  match run E p w with
  | (Ok a, w1, t1) => (Ok a, w1, t1)
  | (Raise e, w1, t1) =>
      if catches e
      then let '(r, w2, t2) := run E (handler e) w1 in (r, w2, (t1 ++ t2)%list)
      else (Raise e, w1, t1)
  end.
Proof.
  revert w. induction p as [a|e|c k IH]; intros w; simpl.
  - reflexivity.
  - destruct (catches e); [|reflexivity].
    now destruct (run E (handler e) w) as [[r w2] t2].
  - destruct (E w c) as [r w1]. rewrite IH.
    destruct (run E (k r) w1) as [[[a|e] w2] t2]; [reflexivity|].
    destruct (catches e); [|reflexivity].
    now destruct (run E (handler e) w2) as [[r' w3] t3].
Qed.

Lemma run_lift {A : Type} (r : result A) (w : W) :
  run E (lift r) w = (r, w, []).
Proof. now destruct r. Qed.

Lemma run_call (c : syscall) (w : W) :
  run E (call c) w = (fst (E w c), snd (E w c), [Event c (fst (E w c))]).
Proof.
  unfold call. simpl. destruct (E w c) as [r w1]. simpl.
  now rewrite run_lift.
Qed.

(** The batch loop over a concatenation: the first part runs to its
    end, then the second part runs from the state it left; an exception
    in the first part ends the loop. *)
Lemma run_for_each_app {A : Type} (func : string -> prog A)
    (xs ys : list string) (w : W) :
  run E (for_each func (xs ++ ys)%list) w =
  match run E (for_each func xs) w with
  | (Ok rs, w1, t1) =>
      match run E (for_each func ys) w1 with
      | (Ok rs', w2, t2) => (Ok (rs ++ rs')%list, w2, (t1 ++ t2)%list)
      | (Raise e, w2, t2) => (Raise e, w2, (t1 ++ t2)%list)
      end
  | (Raise e, w1, t1) => (Raise e, w1, t1)
  end.
Proof.
  revert w. induction xs as [|x xs IH]; intros w.
  - simpl. now destruct (run E (for_each func ys) w) as [[[rs'|e] w2] t2].
  - cbn [app for_each]. rewrite !run_bind.
    destruct (run E (func x) w) as [[[a|e] w1] t1]; [|reflexivity].
    rewrite !run_bind, IH.
    destruct (run E (for_each func xs) w1) as [[[rs|e] w2] t2];
      [|reflexivity].
    simpl.
    destruct (run E (for_each func ys) w2) as [[[rs'|e] w3] t3];
      simpl; now rewrite ?app_nil_r, ?app_assoc.
Qed.

Lemma run_for_each_cons_raise {A : Type} (func : string -> prog A)
    (p : string) (rest : list string) (w w1 : W) (e : exn)
    (t1 : list event) :
  run E (func p) w = (Raise e, w1, t1) ->
  run E (for_each func (p :: rest)) w = (Raise e, w1, t1).
Proof. intros H. cbn [for_each]. now rewrite run_bind, H. Qed.

End RunFacts.


(** ** The publish and delete protocol *)

Section Protocol.

Context {W : Type} (E : environment W).
Variable urlparse : string -> result ParseResult.
Variable self : StaticGenerator.

(** Publishing a path that maps to no location does nothing. *)
Lemma run_publish_unmapped (raw : string)
    (query_string supplied : option string) (is_ajax : bool)
    (p : string) (q : option string) (w : W) :
  split_unless_given raw query_string = Ok (p, q) ->
  get_filename_from_path self p q is_ajax = Ok (None, None) ->
  run E (publish_from_path urlparse self raw query_string supplied is_ajax) w
    = (Ok tt, w, []).
Proof.
  intros Hsplit Hmap. unfold publish_from_path.
  destruct query_string as [given|]; cbn [split_unless_given] in Hsplit.
  - injection Hsplit as <- <-. cbn [bind]. rewrite Hmap. reflexivity.
  - rewrite Hsplit. cbn [lift bind]. rewrite Hmap. reflexivity.
Qed.

(** C3: a path whose composed filename is longer than 255 bytes maps
    to "no location" (no exception), and publishing it returns normally
    with the world unchanged and without a single call: no renderer
    call, no directory creation, no write. *)
Theorem oversized_path_is_skipped (raw : string)
    (query_string supplied : option string) (is_ajax : bool)
    (p : string) (q : option string) (f : string) (w : W) :
  split_unless_given raw query_string = Ok (p, q) ->
  encode_utf8 (cache_name (web_root self) p q is_ajax) = Ok f ->
  255 < String.length f ->
  get_filename_from_path self p q is_ajax = Ok (None, None) /\
  run E (publish_from_path urlparse self raw query_string supplied is_ajax) w
    = (Ok tt, w, []).
Proof.
  intros Hsplit Henc Hlen.
  pose proof (oversized_name_has_no_location self _ _ _ _ Henc Hlen) as Hmap.
  split; [exact Hmap|]. now apply run_publish_unmapped with p q.
Qed.

(** C10: deleting a path whose composed filename is longer than 255
    bytes is not skipped.  The location is [None], [os.path.exists(None)]
    raises before any call reaches the file system, and the bare [except]
    turns that into the [StaticGeneratorException] "Could not delete
    file: None"; publishing the same path returns normally. *)
Theorem oversized_path_delete_raises (raw : string) (is_ajax : bool)
    (p : string) (q : option string) (f : string) (w : W) :
  get_query_string_from_path raw = Ok (p, q) ->
  encode_utf8 (cache_name (web_root self) p q is_ajax) = Ok f ->
  255 < String.length f ->
  run E (delete_from_path self raw is_ajax) w
    = (Raise (FileDeleteFailed None), w, []) /\
  exn_str (FileDeleteFailed None) = "Could not delete file: None" /\
  run E (publish_from_path urlparse self raw None None is_ajax) w
    = (Ok tt, w, []).
Proof.
  intros Hsplit Henc Hlen.
  pose proof (oversized_name_has_no_location self _ _ _ _ Henc Hlen) as Hmap.
  split; [|split; [reflexivity|]].
  - unfold delete_from_path. rewrite Hsplit. cbn [lift bind].
    rewrite Hmap. reflexivity.
  - now apply run_publish_unmapped with p q.
Qed.

(** C5: deleting a path whose file is absent raises nothing, so a
    second delete right after a first one succeeds as well; a failing
    [os.remove] of an existing file is reported as "Could not delete
    file"; a failing [os.rmdir] afterwards is swallowed.  Here [f] and
    [d] are the file and directory the path maps to, the file is absent
    when [os.stat] raises [OSError] (then [os.path.exists] is false),
    and [os.rmdir] fails with [OSError]. *)
Theorem delete_from_path_outcomes (raw : string) (is_ajax : bool)
    (p : string) (q : option string) (f d : string) :
  get_query_string_from_path raw = Ok (p, q) ->
  get_filename_from_path self p q is_ajax = Ok (Some f, Some d) ->
  (* an absent file is not an error *)
  (forall w e w1 r w2,
      E w (OsStat f) = (Raise e, w1) -> is_OSError e = true ->
      E w1 (OsRmdir d) = (r, w2) -> tolerated r = true ->
      run E (delete_from_path self raw is_ajax) w =
        (Ok tt, w2, [Event (OsStat f) (Raise e); Event (OsRmdir d) r])) /\
  (* a failure to remove an existing file is reported *)
  (forall w w1 e w2,
      E w (OsStat f) = (Ok tt, w1) ->
      E w1 (OsRemove f) = (Raise e, w2) ->
      run E (delete_from_path self raw is_ajax) w =
        (Raise (FileDeleteFailed (Some f)), w2,
         [Event (OsStat f) (Ok tt); Event (OsRemove f) (Raise e)])) /\
  (* a failure to remove the directory is swallowed *)
  (forall w w1 w2 e w3,
      E w (OsStat f) = (Ok tt, w1) ->
      E w1 (OsRemove f) = (Ok tt, w2) ->
      E w2 (OsRmdir d) = (Raise e, w3) -> is_OSError e = true ->
      run E (delete_from_path self raw is_ajax) w =
        (Ok tt, w3,
         [Event (OsStat f) (Ok tt); Event (OsRemove f) (Ok tt);
          Event (OsRmdir d) (Raise e)])) /\
  (* deleting twice in a row *)
  (forall w tr w' e w1 r w2,
      run E (delete_from_path self raw is_ajax) w = (Ok tt, w', tr) ->
      E w' (OsStat f) = (Raise e, w1) -> is_OSError e = true ->
      E w1 (OsRmdir d) = (r, w2) -> tolerated r = true ->
      run E (delete_from_path self raw is_ajax ;;;
             delete_from_path self raw is_ajax) w =
        (Ok tt, w2,
         (tr ++ [Event (OsStat f) (Raise e); Event (OsRmdir d) r])%list)).
Proof.
  intros Hsplit Hmap.
  assert (Habsent : forall w e w1 r w2,
      E w (OsStat f) = (Raise e, w1) -> is_OSError e = true ->
      E w1 (OsRmdir d) = (r, w2) -> tolerated r = true ->
      run E (delete_from_path self raw is_ajax) w =
        (Ok tt, w2, [Event (OsStat f) (Raise e); Event (OsRmdir d) r])).
  { intros w e w1 r w2 Hstat He Hrmdir Hr.
    unfold delete_from_path. rewrite Hsplit. cbn [lift bind]. rewrite Hmap.
    simpl. rewrite Hstat. simpl. rewrite He. simpl. rewrite Hrmdir.
    destruct r as [[]|e']; simpl; [reflexivity|].
    simpl in Hr. now rewrite Hr. }
  split; [exact Habsent|]. split; [|split].
  - intros w w1 e w2 Hstat Hremove.
    unfold delete_from_path. rewrite Hsplit. cbn [lift bind]. rewrite Hmap.
    simpl. rewrite Hstat. simpl. rewrite Hremove. reflexivity.
  - intros w w1 w2 e w3 Hstat Hremove Hrmdir He.
    unfold delete_from_path. rewrite Hsplit. cbn [lift bind]. rewrite Hmap.
    simpl. rewrite Hstat. simpl. rewrite Hremove. simpl. rewrite Hrmdir.
    simpl. now rewrite He.
  - intros w tr w' e w1 r w2 Hfirst Hstat He Hrmdir Hr.
    rewrite run_bind, Hfirst.
    now rewrite (Habsent w' e w1 r w2 Hstat He Hrmdir Hr).
Qed.

(** Splitting off the next call of a run. *)
Ltac next_call :=
  match goal with
  | |- context [E ?w ?c] =>
      let Hc := fresh "Hcall" in
      destruct (E w c) as [[?a|?e] ?w] eqn:Hc; simpl
  end.

Ltac split_replies :=
  repeat match goal with
         | x : reply _ |- _ => progress cbn [reply] in x
         | x : unit |- _ => destruct x
         | x : (Z * string)%type |- _ => destruct x as [?fd ?tmpname]
         end.

Ltac same_call H :=
  apply (f_equal ev_call) in H; cbn [ev_call] in H;
  first [discriminate H | injection H as H; subst | idtac].

(** One rendering: the handler is called once, with the request built
    from the path as given. *)
Lemma run_get_content_from_path (path : string) (w : W) :
  run E (get_content_from_path urlparse self path) w =
  match urlparse path with
  | Raise e => (Raise e, w, [])
  | Ok parsed =>
      let c := DummyHandler (request_for self path parsed) in
      match E w c with
      | (Raise err, w1) =>
          (Raise (RenderFailed path err), w1, [Event c (Raise err)])
      | (Ok response, w1) =>
          if (status_code response =? 200)%Z
          then (Ok (content response), w1, [Event c (Ok response)])
          else (Raise (NonSuccessStatus path (status_code response)), w1,
                [Event c (Ok response)])
      end
  end.
Proof.
  unfold get_content_from_path.
  destruct (urlparse path) as [parsed|e]; cbn [lift bind]; [|reflexivity].
  fold (request_for self path parsed). simpl.
  destruct (E w _) as [[response|err] w1]; simpl; [|reflexivity].
  now destruct (status_code response =? 200)%Z.
Qed.

(** Both rendering errors name the path they were raised for, and the
    first ends with the text of the handler's exception. *)
Lemma render_errors_carry_path (path : string) (err : exn) (code : Z) :
  exn_str (RenderFailed path err) =
    "The requested page(" ++ dquote ++ path ++ dquote ++
    ") raised an exception. Static Generation failed. Error: " ++ exn_str err /\
  exn_str (NonSuccessStatus path code) =
    "The requested page(" ++ dquote ++ path ++ dquote ++
    ") returned http code " ++ percent_d code ++ ". Static Generation failed.".
Proof. split; reflexivity. Qed.

(** The two rendering errors are never the same exception. *)
Lemma render_error_kinds_differ (path : string) (err : exn) (code : Z) :
  RenderFailed path err <> NonSuccessStatus path code.
Proof.
  unfold RenderFailed, NonSuccessStatus, StaticGeneratorException.
  intros H. injection H as H. cbn [append dquote] in H.
  repeat match type of H with
         | String _ _ = String _ _ => injection H as H
         end.
  apply append_inj_l in H. discriminate H.
Qed.

(** C6: when the caller supplies no content, the handler is called
    with a request built from the original, unsplit path.  If the
    handler raises, publish raises "raised an exception" with that path
    and the text of the error (and this is not a status failure); if it
    answers with a status other than 200, publish raises "returned http
    code" with that path; if it answers 200, the body is what every
    [os.write] carries, the handler is not called again, and the outcome
    is success, a failure to create the directory or the file, or an
    exception of [os.stat] itself: not a status failure, as long as
    [os.stat] does not raise the package's own exception class. *)
Theorem renderer_contract (raw : string) (query_string supplied : option string)
    (is_ajax : bool) (p : string) (q : option string) (f d : string)
    (parsed : ParseResult) (w : W) :
  split_unless_given raw query_string = Ok (p, q) ->
  get_filename_from_path self p q is_ajax = Ok (Some f, Some d) ->
  f <> "" ->
  truth supplied = false ->
  urlparse raw = Ok parsed ->
  let call := DummyHandler (request_for self raw parsed) in
  let outcome :=
    run E (publish_from_path urlparse self raw query_string supplied is_ajax) w in
  match E w call with
  | (Raise err, w1) =>
      outcome = (Raise (RenderFailed raw err), w1, [Event call (Raise err)]) /\
      forall code, RenderFailed raw err <> NonSuccessStatus raw code
  | (Ok response, w1) =>
      if (status_code response =? 200)%Z then
        exists res w2 tr,
          outcome = (res, w2, Event call (Ok response) :: tr) /\
          (forall fd data r,
              In (Event (OsWrite fd data) r) tr -> data = content response) /\
          (forall request r, ~ In (Event (DummyHandler request) r) tr) /\
          (res = Ok tt ->
           exists fd n, In (Event (OsWrite fd (content response)) (Ok n)) tr) /\
          (res = Ok tt \/
           res = Raise (DirectoryCreateFailed (Some d)) \/
           res = Raise (FileWriteFailed f) \/
           exists e, res = Raise e /\ In (Event (OsStat d) (Raise e)) tr) /\
          ((forall e, In (Event (OsStat d) (Raise e)) tr ->
                      exn_type e <> StaticGeneratorExceptionClass) ->
           forall code, res <> Raise (NonSuccessStatus raw code))
      else
        outcome = (Raise (NonSuccessStatus raw (status_code response)), w1,
                   [Event call (Ok response)])
  end.
Proof.
  intros Hsplit Hmap Hf Hsupplied Hparse call outcome.
  unfold outcome, publish_from_path.
  assert (Hhead : (match query_string with
                   | None => lift (get_query_string_from_path raw)
                   | Some _ => Ret (raw, query_string)
                   end) = Ret (p, q)).
  { destruct query_string; cbn [split_unless_given] in Hsplit.
    - now injection Hsplit as <- <-.
    - now rewrite Hsplit. }
  rewrite Hhead. cbn [bind]. rewrite Hmap. cbn [lift bind].
  destruct f as [|f0 f']; [now elim Hf|].
  assert (Hc : match supplied with
               | Some (String _ _ as c) => Ret c
               | _ => get_content_from_path urlparse self raw
               end = get_content_from_path urlparse self raw).
  { destruct supplied as [[|c0 c]|]; [reflexivity|discriminate|reflexivity]. }
  rewrite Hc. unfold get_content_from_path. rewrite Hparse.
  cbn [lift bind]. fold (request_for self raw parsed). fold call.
  simpl. destruct (E w call) as [[response|err] w1]; simpl;
    [| split; [reflexivity | intros code; apply render_error_kinds_differ] ].
  destruct (status_code response =? 200)%Z eqn:Hstatus; simpl; [|reflexivity].
  repeat (next_call; split_replies; simpl;
          try match goal with
              | |- context [is_OSError ?e] =>
                  destruct (is_OSError e) eqn:?; simpl
              end).
  all: do 3 eexists; split; [reflexivity|].
  all: split;
    [ intros fd' data r' Hin; simpl in Hin;
      repeat (destruct Hin as [Hin|Hin]; [same_call Hin|]);
      try reflexivity; try contradiction
    | split;
      [ intros request r' Hin; simpl in Hin;
        repeat (destruct Hin as [Hin|Hin]; [same_call Hin|]);
        contradiction
      | split;
        [ intros Hres; first [discriminate Hres | simpl; eauto 8]
        | split;
          [ first [ left; reflexivity
                  | right; left; reflexivity
                  | right; right; left; reflexivity
                  | right; right; right; eexists; split;
                    [reflexivity | simpl; auto] ]
          | intros Hsane code Hres;
            first [ discriminate Hres
                  | injection Hres as Hres; discriminate Hres
                  | injection Hres as Hres; subst;
                    eapply Hsane; [simpl; eauto | reflexivity] ] ] ] ] ].
Qed.

Lemma publish_from_path_ends_with_store (raw : string)
    (query_string supplied : option string) (is_ajax : bool) :
  publish_from_path urlparse self raw query_string supplied is_ajax =
  ('(path, query_string) <- lift (split_unless_given raw query_string) ;;
   '(filename, directory) <-
     lift (get_filename_from_path self path query_string is_ajax) ;;
   match filename with
   | None | Some EmptyString => Ret tt
   | Some filename =>
       content <-
         match supplied with
         | None | Some EmptyString => get_content_from_path urlparse self raw
         | Some content => Ret content
         end ;;
       store directory filename content
   end).
Proof. now destruct query_string. Qed.




(** A path that maps to a filename is never passed over in silence: a
    normal return without a call does not meet the discipline. *)
Lemma silent_publish_breaks_discipline (raw : string)
    (query_string supplied : option string) (is_ajax : bool)
    (p : string) (q : option string) (f : string) (d : option string) :
  split_unless_given raw query_string = Ok (p, q) ->
  get_filename_from_path self p q is_ajax = Ok (Some f, d) ->
  f <> EmptyString ->
  ~ temporary_file_discipline urlparse self raw query_string supplied is_ajax
      (Ok tt) [].
Proof.
  intros Hsplit Hmap Hne. unfold temporary_file_discipline.
  rewrite Hsplit, Hmap.
  destruct f as [|f0 f']; [now elim Hne|].
  intros [pre [ws [Htr [_ [[_ Hstop]|[got [ready [body [_ [_ [_ [Hwr _]]]]]]]]]]]].
  - inversion Hstop.
  - symmetry in Htr. apply app_eq_nil in Htr as [_ ->]. inversion Hwr.
Qed.


Lemma batch_is_for_each (op : operation) :
  batch urlparse op self =
  for_each (from_path urlparse op self) (resources self).
Proof. now destruct op. Qed.

(** C8: the batch methods [publish], [delete] and [recursive_delete]
    work through the resources in list order.  Once the paths before
    [p] have been processed, an exception raised for [p] is the outcome
    of the whole batch and its calls are the last ones made: nothing is
    done for the paths after [p].  If [p] succeeds, the paths after it
    follow, starting from the state [p] left. *)
Theorem batch_in_order_until_first_failure (op : operation)
    (before : list string) (p : string) (after : list string)
    (w : W) (rs : list unit) (w1 : W) (t1 : list event) :
  resources self = (before ++ p :: after)%list ->
  run E (for_each (from_path urlparse op self) before) w = (Ok rs, w1, t1) ->
  (forall e w2 t2,
      run E (from_path urlparse op self p) w1 = (Raise e, w2, t2) ->
      run E (batch urlparse op self) w = (Raise e, w2, (t1 ++ t2)%list)) /\
  (forall r w2 t2,
      run E (from_path urlparse op self p) w1 = (Ok r, w2, t2) ->
      exists res w3 t3,
        run E (for_each (from_path urlparse op self) after) w2
          = (res, w3, t3) /\
        run E (batch urlparse op self) w =
          (match res with
           | Ok rs' => Ok (rs ++ r :: rs')%list
           | Raise e => Raise e
           end, w3, (t1 ++ t2 ++ t3)%list)).
Proof.
  intros Hres Hbefore.
  rewrite batch_is_for_each, Hres, run_for_each_app, Hbefore.
  cbn [for_each]. rewrite run_bind. split.
  - intros e w2 t2 Hp. now rewrite Hp.
  - intros r w2 t2 Hp. rewrite Hp, run_bind.
    destruct (run E (for_each (from_path urlparse op self) after) w2)
      as [[[rs'|e] w3] t3]; do 3 eexists; (split; [reflexivity|]);
      simpl; now rewrite ?app_nil_r.
Qed.

End Protocol.


(** ** The theorems at work on the simulated file system *)

Module Examples.

Import SimFS.

(** The three calls given as examples for the query string split. *)
Example split_one_query :
  get_query_string_from_path "/a/b?x=1" = Ok ("/a/b", Some "x=1").
Proof. reflexivity. Qed.

Example split_no_query :
  get_query_string_from_path "/a/b" = Ok ("/a/b", None).
Proof. reflexivity. Qed.

Example split_two_queries :
  get_query_string_from_path "/a?x=1?y=2" = Raise (MalformedPath "/a?x=1?y=2").
Proof. reflexivity. Qed.

Lemma index_document_suffix_witness :
  get_filename_from_path s0 "/post/1/" None false =
    Ok (Some "/var/www/post/1/index.html%3F", Some "/var/www/post/1") /\
  endswith "/var/www/post/1/index.html%3F" "index.html%3F" = true.
Proof.
  apply (index_document_suffix s0 "/post/1/");
    [reflexivity | reflexivity | simpl; lia].
Defined.

(** C1 as stated fails: the name of the index document of [/] ends in
    [index.html%3F], not in [index.html?].  The two provisos of the
    amended claim are needed as well: a path of 302 bytes ending in [/]
    maps to no location, and a path holding the byte 0xE9 makes the
    encoding raise. *)
Lemma index_document_question_mark_refuted :
  (endswith "/" "/" = true /\
   get_filename_from_path s0 "/" None false =
     Ok (Some "/var/www/index.html%3F", Some "/var/www") /\
   ~ (exists f d,
         get_filename_from_path s0 "/" None false = Ok (Some f, d) /\
         endswith f "index.html?" = true)) /\
  (endswith long_dir "/" = true /\
   get_filename_from_path s0 long_dir None false = Ok (None, None)) /\
  (endswith latin_dir "/" = true /\
   get_filename_from_path s0 latin_dir None false =
     Raise (UnicodeDecodeError 12 (ascii_of_nat 233))).
Proof.
  split; [|split; split; reflexivity].
  split; [reflexivity|]. split; [reflexivity|].
  intros [f [d [Hmap Hend]]].
  vm_compute in Hmap. injection Hmap as <- _.
  vm_compute in Hend. discriminate Hend.
Qed.

Lemma ajax_mapping_differs_witness :
  get_filename_from_path s0 "/post/1/" (Some "x=1") true <>
  get_filename_from_path s0 "/post/1/" (Some "x=1") false /\
  get_filename_from_path s0 long_path None true = Ok (None, None).
Proof.
  split.
  - apply (proj1 (ajax_mapping_differs s0 "/post/1/" (Some "x=1"))
             "/var/www/post/1/index.html%3Fx=1" (Some "/var/www/post/1")).
    reflexivity.
  - apply (proj2 (ajax_mapping_differs s0 long_path None)).
    reflexivity.
Defined.

(** C7 as stated fails beyond the limit: a path of 301 bytes has the
    same mapping, no location, with and without the AJAX flag. *)
Lemma ajax_mapping_equal_beyond_limit :
  get_filename_from_path s0 long_path None true =
  get_filename_from_path s0 long_path None false.
Proof. reflexivity. Qed.

Lemma query_string_appended_verbatim_witness :
  get_filename_from_path s0 "/foo/bar" (Some "x=1") false =
    Ok (Some "/var/www/foo/barx=1", Some "/var/www/foo").
Proof.
  apply (query_string_appended_verbatim s0 "/foo/bar" "x=1");
    [discriminate | reflexivity | discriminate | reflexivity | simpl; lia].
Defined.

(** C9 as stated fails for a long path, which maps to no location; for
    the empty path, where a slash opening the query string is stripped;
    and for a path holding the byte 0xE9, where the encoding raises. *)
Lemma query_string_mapping_refuted :
  (endswith long_path "/" = false /\
   get_filename_from_path s0 long_path (Some "x=1") false = Ok (None, None) /\
   get_filename_from_path s0 long_path (Some "x=1") false <>
     Ok (Some (os_path.join "/var/www" (lstrip slash long_path) ++ "x=1"),
         Some (os_path.dirname
                 (os_path.join "/var/www" (lstrip slash long_path) ++ "x=1")))) /\
  (endswith "" "/" = false /\
   get_filename_from_path s0 "" (Some "/x") false =
     Ok (Some "/var/www/x", Some "/var/www") /\
   os_path.join "/var/www" (lstrip slash "") ++ "/x" = "/var/www//x") /\
  (endswith latin_path "/" = false /\
   get_filename_from_path s0 latin_path (Some "x=1") false =
     Raise (UnicodeDecodeError 12 (ascii_of_nat 233))).
Proof.
  split; [|split]; (split; [reflexivity|]); try (split; [reflexivity|]).
  - intros H. vm_compute in H. discriminate H.
  - reflexivity.
  - reflexivity.
Qed.

Lemma oversized_path_is_skipped_witness :
  get_filename_from_path s0 long_path None false = Ok (None, None) /\
  run E0 (publish_from_path SimFS.urlparse s0 long_path None None false)
    (empty_root "/var/www") = (Ok tt, empty_root "/var/www", []).
Proof.
  apply (oversized_path_is_skipped E0 SimFS.urlparse s0 long_path None None
           false long_path None (cache_name "/var/www" long_path None false));
    [reflexivity | reflexivity | vm_compute; lia].
Defined.

Lemma oversized_path_delete_raises_witness :
  run E0 (delete_from_path s0 long_path false) (empty_root "/var/www") =
    (Raise (FileDeleteFailed None), empty_root "/var/www", []) /\
  exn_str (FileDeleteFailed None) = "Could not delete file: None" /\
  run E0 (publish_from_path SimFS.urlparse s0 long_path None None false)
    (empty_root "/var/www") = (Ok tt, empty_root "/var/www", []).
Proof.
  apply (oversized_path_delete_raises E0 SimFS.urlparse s0 long_path false
           long_path None (cache_name "/var/www" long_path None false));
    [reflexivity | reflexivity | vm_compute; lia].
Defined.

Lemma delete_from_path_outcomes_witness :
  (* absent file, directory not empty *)
  run E0 (delete_from_path s0 "/post/1/" false)
    (holding [(other_file, "x")] [post_dir; "/var/www"]) =
    (Ok tt, holding [(other_file, "x")] [post_dir; "/var/www"],
     [Event (OsStat post_file) (Raise ENOENT);
      Event (OsRmdir post_dir) (Raise ENOTEMPTY)]) /\
  (* the file cannot be removed *)
  run (failing deny_remove E0) (delete_from_path s0 "/post/1/" false)
    (holding [(post_file, "x")] [post_dir; "/var/www"]) =
    (Raise (FileDeleteFailed (Some post_file)),
     holding [(post_file, "x")] [post_dir; "/var/www"],
     [Event (OsStat post_file) (Ok tt);
      Event (OsRemove post_file) (Raise EACCES)]) /\
  (* file removed, directory not empty *)
  run E0 (delete_from_path s0 "/post/1/" false)
    (holding [(post_file, "x"); (other_file, "x")] [post_dir; "/var/www"]) =
    (Ok tt, holding [(other_file, "x")] [post_dir; "/var/www"],
     [Event (OsStat post_file) (Ok tt);
      Event (OsRemove post_file) (Ok tt);
      Event (OsRmdir post_dir) (Raise ENOTEMPTY)]) /\
  (* twice in a row *)
  run E0 (delete_from_path s0 "/post/1/" false ;;;
          delete_from_path s0 "/post/1/" false)
    (holding [(post_file, "x")] [post_dir; "/var/www"]) =
    (Ok tt, holding [] ["/var/www"],
     [Event (OsStat post_file) (Ok tt);
      Event (OsRemove post_file) (Ok tt);
      Event (OsRmdir post_dir) (Ok tt);
      Event (OsStat post_file) (Raise ENOENT);
      Event (OsRmdir post_dir) (Raise ENOENT)]).
Proof.
  pose proof (delete_from_path_outcomes E0 s0 "/post/1/" false "/post/1/"
                None post_file post_dir eq_refl eq_refl)
    as [Habsent [_ [Hrmdir Htwice]]].
  pose proof (delete_from_path_outcomes (failing deny_remove E0) s0
                "/post/1/" false "/post/1/" None post_file post_dir
                eq_refl eq_refl)
    as [_ [Hremove _]].
  split; [|split; [|split]].
  - apply (Habsent (holding [(other_file, "x")] [post_dir; "/var/www"])
             ENOENT (holding [(other_file, "x")] [post_dir; "/var/www"])
             (Raise ENOTEMPTY));
      reflexivity.
  - apply (Hremove (holding [(post_file, "x")] [post_dir; "/var/www"])
             (holding [(post_file, "x")] [post_dir; "/var/www"]) EACCES);
      reflexivity.
  - apply (Hrmdir
             (holding [(post_file, "x"); (other_file, "x")]
                [post_dir; "/var/www"])
             (holding [(post_file, "x"); (other_file, "x")]
                [post_dir; "/var/www"])
             (holding [(other_file, "x")] [post_dir; "/var/www"])
             ENOTEMPTY);
      reflexivity.
  - apply (Htwice (holding [(post_file, "x")] [post_dir; "/var/www"])
             [Event (OsStat post_file) (Ok tt);
              Event (OsRemove post_file) (Ok tt);
              Event (OsRmdir post_dir) (Ok tt)]
             (holding [] ["/var/www"]) ENOENT (holding [] ["/var/www"])
             (Raise ENOENT) (holding [] ["/var/www"]));
      reflexivity.
Defined.

Lemma renderer_contract_witness :
  (* the view raises *)
  run (sim broken_pages)
    (publish_from_path SimFS.urlparse s0 "/post/1/?x=1" None None false)
    (empty_root "/var/www") =
    (Raise (RenderFailed "/post/1/?x=1" (mk_exn ValueErrorClass "bad view")),
     empty_root "/var/www",
     [Event (DummyHandler
               (request_for s0 "/post/1/?x=1"
                  {| parsed_path := "/post/1/"; parsed_query := "x=1" |}))
            (Raise (mk_exn ValueErrorClass "bad view"))]) /\
  (* the view answers 404 *)
  run (sim missing_pages)
    (publish_from_path SimFS.urlparse s0 "/post/1/?x=1" None None false)
    (empty_root "/var/www") =
    (Raise (NonSuccessStatus "/post/1/?x=1" 404), empty_root "/var/www",
     [Event (DummyHandler
               (request_for s0 "/post/1/?x=1"
                  {| parsed_path := "/post/1/"; parsed_query := "x=1" |}))
            (Ok {| status_code := 404; content := "not found" |})]) /\
  (* the view answers 200 *)
  exists res w2 tr,
    run E0
      (publish_from_path SimFS.urlparse s0 "/post/1/?x=1" None None false)
      (empty_root "/var/www") =
      (res, w2,
       Event (DummyHandler
                (request_for s0 "/post/1/?x=1"
                   {| parsed_path := "/post/1/"; parsed_query := "x=1" |}))
             (Ok {| status_code := 200;
                    content := "<html>/post/1/?x=1</html>" |}) :: tr) /\
    (forall fd data r,
        In (Event (OsWrite fd data) r) tr ->
        data = "<html>/post/1/?x=1</html>") /\
    forall code, res <> Raise (NonSuccessStatus "/post/1/?x=1" code).
Proof.
  split; [|split].
  - apply (proj1 (renderer_contract (sim broken_pages) SimFS.urlparse s0
                    "/post/1/?x=1" None None false "/post/1/" (Some "x=1")
                    "/var/www/post/1/index.html%3Fx=1" post_dir
                    {| parsed_path := "/post/1/"; parsed_query := "x=1" |}
                    (empty_root "/var/www") eq_refl eq_refl
                    ltac:(discriminate) eq_refl eq_refl)).
  - apply (renderer_contract (sim missing_pages) SimFS.urlparse s0
             "/post/1/?x=1" None None false "/post/1/" (Some "x=1")
             "/var/www/post/1/index.html%3Fx=1" post_dir
             {| parsed_path := "/post/1/"; parsed_query := "x=1" |}
             (empty_root "/var/www"));
      [reflexivity | reflexivity | discriminate | reflexivity | reflexivity].
  - destruct (renderer_contract E0 SimFS.urlparse s0
                "/post/1/?x=1" None None false "/post/1/" (Some "x=1")
                "/var/www/post/1/index.html%3Fx=1" post_dir
                {| parsed_path := "/post/1/"; parsed_query := "x=1" |}
                (empty_root "/var/www") eq_refl eq_refl
                ltac:(discriminate) eq_refl eq_refl)
      as [res [w2 [tr [Hrun [Hwrite [_ [_ [_ Hstatus]]]]]]]].
    exists res, w2, tr. split; [exact Hrun|]. split; [exact Hwrite|].
    apply Hstatus. intros e Hin.
    vm_compute in Hrun. injection Hrun as _ _ Htr.
    rewrite <- Htr in Hin. simpl in Hin.
    repeat (destruct Hin as [Hin|Hin];
            [apply (f_equal ev_raised) in Hin; try discriminate Hin|]);
      try contradiction.
    injection Hin as <-. discriminate.
Defined.


(** The calls of that publish, spelled out. *)
Example publish_trace :
  example_publish_run =
  (Ok tt,
   {| files := [("/var/www/post/1/index.html%3Fx=1",
                 "<html>/post/1/?x=1</html>")];
      dirs := [post_dir; "/var/www"];
      open_files := [];
      next_tmp := 1 |},
   [Event (DummyHandler
             (request_for s0 "/post/1/?x=1"
                {| parsed_path := "/post/1/"; parsed_query := "x=1" |}))
          (Ok {| status_code := 200;
                 content := "<html>/post/1/?x=1</html>" |});
    Event (OsStat post_dir) (Raise ENOENT);
    Event (OsMakedirs post_dir) (Ok tt);
    Event (TempfileMkstemp (Some post_dir)) (Ok (3%Z, "/var/www/post/1/tmp0"));
    Event (OsWrite 3 "<html>/post/1/?x=1</html>") (Ok 25%Z);
    Event (OsClose 3) (Ok tt);
    Event (OsChmod "/var/www/post/1/tmp0" mode_644) (Ok tt);
    Event (OsRename "/var/www/post/1/tmp0" "/var/www/post/1/index.html%3Fx=1")
          (Ok tt)]).
Proof. reflexivity. Qed.

Lemma batch_in_order_until_first_failure_witness :
  run E0 (batch SimFS.urlparse Publish blog) (empty_root "/var/www") =
    (Raise (MalformedPath "/b?x?y"),
     snd (fst example_first_path_run),
     (snd example_first_path_run ++ [])%list).
Proof.
  apply (proj1 (batch_in_order_until_first_failure E0 SimFS.urlparse blog
                  Publish ["/a"] "/b?x?y" ["/c"] (empty_root "/var/www")
                  [tt] (snd (fst example_first_path_run))
                  (snd example_first_path_run) eq_refl eq_refl)).
  reflexivity.
Defined.

(** In that batch the page [/a] is written and [/c] is never touched. *)
Example batch_trace :
  fst (run E0 (publish SimFS.urlparse blog) (empty_root "/var/www")) =
  (Raise (MalformedPath "/b?x?y"),
   {| files := [("/var/www/a", "<html>/a</html>")];
      dirs := ["/var/www"];
      open_files := [];
      next_tmp := 1 |}).
Proof. reflexivity. Qed.

End Examples.

(** ** More on the path mapper *)

Section MapperMore.

Variable self : StaticGenerator.

Lemma count_app (c : ascii) (a b : string) :
  count c (a ++ b) = count c a + count c b.
Proof.
  induction a as [|x a IH]; simpl; [reflexivity|].
  rewrite IH. now destruct (Ascii.eqb x c).
Qed.

Lemma before_app_sep (c : ascii) (p q : string) :
  count c p = 0 -> before c (p ++ String c q) = p.
Proof.
  induction p as [|x p IH]; simpl.
  - now rewrite Ascii.eqb_refl.
  - destruct (Ascii.eqb x c); [discriminate|].
    intros H. now rewrite IH.
Qed.

Lemma after_app_sep (c : ascii) (p q : string) :
  count c p = 0 -> after c (p ++ String c q) = q.
Proof.
  induction p as [|x p IH]; simpl.
  - now rewrite Ascii.eqb_refl.
  - destruct (Ascii.eqb x c); [discriminate|]. exact IH.
Qed.

(** The split, by the number of separators (shared by the facts below). *)
Lemma query_split_by_count (raw : string) :
  get_query_string_from_path raw =
  match count qmark raw with
  | 0 => Ok (raw, None)
  | 1 => Ok (before qmark raw, Some (after qmark raw))
  | _ => Raise (MalformedPath raw)
  end.
Proof.
  unfold get_query_string_from_path. cbv zeta.
  rewrite split_unfold.
  destruct (count qmark raw) as [|[|n]] eqn:Hc.
  - cbn. now rewrite before_no_sep.
  - rewrite split_unfold, (count_after _ _ _ Hc). cbn.
    now rewrite (before_no_sep qmark (after qmark raw) (count_after _ _ _ Hc)).
  - rewrite split_unfold, (count_after _ _ _ Hc).
    rewrite split_unfold. reflexivity.
Qed.

(** A path and a query string without [?], joined by one, split back. *)
Lemma split_of_joined (p : string) (q : option string) :
  count qmark p = 0 -> count qmark (query_segment q) = 0 ->
  get_query_string_from_path (p ++ query_suffix q) = Ok (p, q).
Proof.
  intros Hp Hq. rewrite query_split_by_count.
  destruct q as [q|]; cbn [query_suffix query_segment] in *.
  - cbn [append]. rewrite count_app. cbn [count].
    rewrite Ascii.eqb_refl, Hp, Hq. cbn.
    now rewrite before_app_sep, after_app_sep.
  - rewrite append_nil_r, Hp. reflexivity.
Qed.

(** X1: splitting loses nothing.  The raw path splits into [p] and a
    query string exactly when it is [p], a [?], and that query string,
    neither part holding a [?]; it splits into [p] and no query string
    exactly when it is [p] and holds no [?]. *)
Theorem split_query_round_trip (raw p : string) (q : option string) :
  get_query_string_from_path raw = Ok (p, q) <->
  raw = p ++ query_suffix q /\
  count qmark p = 0 /\
  count qmark (query_segment q) = 0.
Proof.
  rewrite query_split_by_count. split.
  - destruct (count qmark raw) as [|[|n]] eqn:Hc; intros H;
      [injection H as <- <- | injection H as <- <- | discriminate H].
    + cbn. now rewrite append_nil_r.
    + cbn [query_suffix query_segment append].
      split; [apply before_sep_after; congruence|].
      split; [apply count_before | now apply count_after].
  - intros [-> [Hp Hq]]. rewrite <- query_split_by_count.
    now apply split_of_joined.
Qed.

Lemma prefix_app (a b : string) : prefix a (a ++ b) = true.
Proof.
  induction a as [|x a IH]; simpl; [now destruct b|].
  destruct (ascii_dec x x) as [_|Hn]; [exact IH | now elim Hn].
Qed.

(** X3: every filename the mapper returns lies under the web root: it
    is the web root, a separating slash unless the root is empty or ends
    in one, and a relative name.  However many slashes the URL path
    starts with, the name never replaces the root. *)
Theorem mapped_filename_under_web_root (path : string)
    (query_string : option string) (is_ajax : bool) (f : string)
    (directory : option string) :
  get_filename_from_path self path query_string is_ajax =
    Ok (Some f, directory) ->
  prefix (web_root self) f = true /\
  exists relative,
    f = root_prefix (web_root self) ++ relative /\
    startswith relative "/" = false.
Proof.
  intros H.
  destruct (get_filename_from_path_cases self path query_string is_ajax)
    as [[_ [e He]]|[[_ [_ He]]|[_ [_ He]]]]; rewrite He in H;
    try discriminate H.
  injection H as <- _. unfold cache_name. rewrite join_lstrip. split.
  - unfold root_prefix.
    destruct ((web_root self =? "") || endswith (web_root self) "/").
    + apply prefix_app.
    + rewrite append_assoc. apply prefix_app.
  - eexists. split; [reflexivity|]. apply lstrip_not_startswith.
Qed.

(** X4: a raw path ending in a bare [?] has the location of the path
    without it: an empty query string leaves no mark in the name. *)
Theorem empty_query_string_leaves_no_mark (p : string) (is_ajax : bool) :
  count qmark p = 0 ->
  cache_location self (p ++ "?") is_ajax = cache_location self p is_ajax.
Proof.
  intros Hp. unfold cache_location.
  pose proof (split_of_joined p (Some "") Hp eq_refl) as Hmark.
  cbn [query_suffix append] in Hmark. rewrite Hmark.
  pose proof (split_of_joined p None Hp eq_refl) as Hplain.
  cbn [query_suffix] in Hplain. rewrite append_nil_r in Hplain.
  now rewrite Hplain.
Qed.

(** X5: the name does not record where the query string began.  For a
    path [p] and a query string [q], neither holding a [?], where
    neither [p] nor [p] followed by [q] ends in a slash, the raw paths
    [p?q] and [pq] have the same location: publishing one overwrites the
    file of the other. *)
Theorem query_boundary_is_not_recorded (p q : string) (is_ajax : bool) :
  count qmark p = 0 -> count qmark q = 0 ->
  endswith p "/" = false -> endswith (p ++ q) "/" = false ->
  cache_location self (p ++ "?" ++ q) is_ajax =
  cache_location self (p ++ q) is_ajax.
Proof.
  intros Hp Hq Hend Hend'. unfold cache_location.
  pose proof (split_of_joined p (Some q) Hp Hq) as Hjoined.
  cbn [query_suffix] in Hjoined. rewrite Hjoined.
  assert (Hpq : count qmark (p ++ q) = 0) by now rewrite count_app, Hp, Hq.
  pose proof (split_of_joined (p ++ q) None Hpq eq_refl) as Hplain.
  cbn [query_suffix] in Hplain. rewrite append_nil_r in Hplain.
  rewrite Hplain.
  rewrite !get_filename_from_path_cache_name. unfold cache_name, index_segment.
  rewrite Hend, Hend'. cbn [query_segment append].
  now rewrite !append_assoc.
Qed.

(** X6: slashes in front of a non-empty path do not change its
    location. *)
Theorem leading_slash_is_ignored (path : string)
    (query_string : option string) (is_ajax : bool) :
  path <> "" ->
  get_filename_from_path self ("/" ++ path) query_string is_ajax =
  get_filename_from_path self path query_string is_ajax.
Proof.
  intros Hne. rewrite !get_filename_from_path_cache_name.
  unfold cache_name, index_segment. cbn [append].
  rewrite (endswith_char_cons "/" path "/" Hne).
  cbn [lstrip]. fold slash. now rewrite Ascii.eqb_refl.
Qed.

End MapperMore.

(** ** Directories of mapped names *)

Section Directories.

Variable self : StaticGenerator.

Lemma rfind_succ_none (c : ascii) (s : string) :
  count c s = 0 -> rfind_succ c s = 0.
Proof.
  induction s as [|x s IH]; simpl; [reflexivity|].
  destruct (Ascii.eqb x c); [discriminate|].
  intros H. now rewrite IH.
Qed.

Lemma rfind_succ_app_r (c : ascii) (f s : string) :
  count c s = 0 -> rfind_succ c (f ++ s) = rfind_succ c f.
Proof.
  intros Hs. induction f as [|x f IH]; simpl.
  - now apply rfind_succ_none.
  - now rewrite IH.
Qed.

Lemma rfind_succ_le (c : ascii) (f : string) :
  rfind_succ c f <= String.length f.
Proof.
  induction f as [|x f IH]; simpl; [lia|].
  destruct (rfind_succ c f); [destruct (Ascii.eqb x c)|]; lia.
Qed.

Lemma substring_app_l (n : nat) (f s : string) :
  n <= String.length f -> substring 0 n (f ++ s) = substring 0 n f.
Proof.
  revert n. induction f as [|x f IH]; intros n Hn; simpl in Hn.
  - assert (n = 0) as -> by lia. now destruct s.
  - destruct n as [|n]; [reflexivity|].
    simpl. rewrite IH by lia. reflexivity.
Qed.

Lemma substring_whole (a : string) :
  substring 0 (String.length a) a = a.
Proof. induction a as [|x a IH]; simpl; [reflexivity | now rewrite IH]. Qed.

(** Text without a slash, appended to a name, stays in its directory. *)
Lemma dirname_app_no_slash (f s : string) :
  count slash s = 0 -> os_path.dirname (f ++ s) = os_path.dirname f.
Proof.
  intros Hs. unfold os_path.dirname.
  rewrite rfind_succ_app_r by exact Hs.
  now rewrite substring_app_l by apply rfind_succ_le.
Qed.

Lemma rfind_succ_app_sep (c : ascii) (a n : string) :
  count c n = 0 -> rfind_succ c (a ++ String c n) = S (String.length a).
Proof.
  intros Hn. induction a as [|x a IH]; simpl.
  - rewrite (rfind_succ_none _ _ Hn). now rewrite Ascii.eqb_refl.
  - now rewrite IH.
Qed.

Lemma all_char_app_false (a b : string) :
  a <> "" -> endswith a "/" = false -> all_char slash (a ++ b) = false.
Proof.
  induction a as [|x a IH]; intros Hne Hend; [now elim Hne|].
  destruct a as [|y a].
  - rewrite endswith_char_single in Hend. cbn [append all_char].
    unfold slash. now rewrite Hend.
  - rewrite endswith_char_cons in Hend by discriminate.
    change (String x (String y a) ++ b) with (String x (String y a ++ b)).
    cbn [all_char]. rewrite IH; [apply andb_false_r | discriminate | exact Hend].
Qed.

Lemma rstrip_app_slash (a : string) :
  a <> "" -> endswith a "/" = false -> rstrip slash (a ++ "/") = a.
Proof.
  induction a as [|x a IH]; intros Hne Hend; [now elim Hne|].
  destruct a as [|y a].
  - rewrite endswith_char_single in Hend. cbn [append rstrip].
    unfold slash. rewrite Ascii.eqb_refl, Hend. reflexivity.
  - rewrite endswith_char_cons in Hend by discriminate.
    change (String x (String y a) ++ "/") with (String x (String y a ++ "/")).
    cbn [rstrip]. rewrite IH; [reflexivity | discriminate | exact Hend].
Qed.

(** The directory of a name without slash put under [a]. *)
Lemma dirname_child (a n : string) :
  a <> "" -> endswith a "/" = false -> count slash n = 0 ->
  os_path.dirname (a ++ "/" ++ n) = a.
Proof.
  intros Hne Hend Hn. unfold os_path.dirname.
  change (a ++ "/" ++ n) with (a ++ String slash n).
  rewrite rfind_succ_app_sep by exact Hn.
  change (a ++ String slash n) with (a ++ "/" ++ n).
  rewrite <- append_assoc.
  replace (S (String.length a)) with (String.length (a ++ "/"))
    by (rewrite length_append; simpl; lia).
  rewrite substring_app_l by lia. rewrite substring_whole.
  rewrite (all_char_app_false a "/" Hne Hend).
  destruct (a ++ "/" =? "") eqn:E.
  - apply String.eqb_eq in E. destruct a; discriminate.
  - simpl. now apply rstrip_app_slash.
Qed.

(** X7: the AJAX variant of a page is a sibling of the plain one.
    Whenever the mapping with the AJAX flag yields a filename, the
    mapping without it yields one too, in the same directory, and the
    AJAX name is the plain name followed by [,ajax]. *)
Theorem ajax_variant_is_a_sibling (path : string)
    (query_string : option string) (fa : string) (da : option string) :
  get_filename_from_path self path query_string true = Ok (Some fa, da) ->
  exists f,
    get_filename_from_path self path query_string false = Ok (Some f, da) /\
    fa = f ++ ",ajax".
Proof.
  intros H.
  destruct (get_filename_from_path_cases self path query_string true)
    as [[_ [e He]]|[[_ [_ He]]|[Ha [Hl He]]]]; rewrite He in H;
    try discriminate H.
  injection H as <- <-. cbv zeta in Ha, Hl.
  rewrite cache_name_ajax in *.
  set (f := cache_name (web_root self) path query_string false) in *.
  rewrite is_ascii_app in Ha. apply andb_true_iff in Ha as [Ha _].
  rewrite length_append in Hl.
  exists f. split; [|reflexivity].
  pose proof (get_filename_from_path_cases self path query_string false)
    as Hplain.
  cbv zeta in Hplain. fold f in Hplain.
  destruct Hplain as [[Hn _]|[[_ [Hlong _]]|[_ [_ Hf]]]].
  - congruence.
  - lia.
  - rewrite Hf. now rewrite dirname_app_no_slash.
Qed.

(** X8: a path ending in [/] with a non-empty query string maps to the
    index document followed at once by the query string, when that name
    is ASCII and at most 255 bytes long. *)
Theorem index_document_with_query (path q : string) (is_ajax : bool) :
  endswith path "/" = true ->
  q <> "" ->
  let name := os_path.join (web_root self) (lstrip slash path)
              ++ "index.html%3F" ++ q ++ ajax_segment is_ajax in
  is_ascii name = true ->
  String.length name <= 255 ->
  get_filename_from_path self path (Some q) is_ajax =
    Ok (Some name, Some (os_path.dirname name)).
Proof.
  intros Hend Hq name Hascii Hlen.
  assert (Hname : cache_name (web_root self) path (Some q) is_ajax = name).
  { unfold cache_name, index_segment, name. rewrite Hend.
    cbn [query_segment]. rewrite !join_lstrip.
    rewrite lstrip_app by reflexivity. now rewrite !append_assoc. }
  rewrite get_filename_from_path_cache_name, Hname.
  rewrite (encode_utf8_ascii _ Hascii).
  apply Nat.ltb_ge in Hlen. now rewrite Hlen.
Qed.

(** X9: a page directly under the site root is stored in the web root
    itself.  For a non-empty web root not ending in a slash and a name
    without slash, with a query string without slash, the directory the
    mapper returns for [/name] is the web root. *)
Theorem top_level_page_lives_in_web_root (name : string)
    (query_string : option string) (is_ajax : bool)
    (f : string) (directory : option string) :
  web_root self <> "" ->
  endswith (web_root self) "/" = false ->
  name <> "" ->
  count slash name = 0 ->
  count slash (query_segment query_string) = 0 ->
  get_filename_from_path self ("/" ++ name) query_string is_ajax =
    Ok (Some f, directory) ->
  directory = Some (web_root self) /\
  f = web_root self ++ "/" ++ name ++ query_segment query_string
      ++ ajax_segment is_ajax.
Proof.
  intros Hroot Hrend Hname Hslash Hq H.
  assert (Hnend : endswith ("/" ++ name) "/" = false).
  { cbn [append]. rewrite endswith_char_cons by exact Hname.
    destruct (endswith name "/") eqn:E; [|reflexivity].
    apply endswith_iff in E as [pre ->].
    rewrite count_app in Hslash. cbn in Hslash. lia. }
  destruct (get_filename_from_path_cases self ("/" ++ name) query_string is_ajax)
    as [[_ [e He]]|[[_ [_ He]]|[_ [_ He]]]]; rewrite He in H;
    try discriminate H.
  injection H as <- <-.
  assert (Hcache : cache_name (web_root self) ("/" ++ name) query_string is_ajax
                   = web_root self ++ "/" ++ name ++ query_segment query_string
                     ++ ajax_segment is_ajax).
  { unfold cache_name, index_segment. rewrite Hnend.
    rewrite join_lstrip. cbn [append lstrip]. fold slash.
    rewrite Ascii.eqb_refl.
    assert (Hl : lstrip slash (name ++ query_segment query_string
                                 ++ ajax_segment is_ajax)
                 = name ++ query_segment query_string ++ ajax_segment is_ajax).
    { destruct name as [|x name]; [now elim Hname|].
      simpl in Hslash. cbn [append lstrip].
      destruct (Ascii.eqb x slash); [discriminate|reflexivity]. }
    rewrite Hl. unfold root_prefix.
    apply String.eqb_neq in Hroot. rewrite Hroot, Hrend. cbn [orb].
    now rewrite !append_assoc. }
  change (String "/" name) with ("/" ++ name).
  rewrite Hcache. split; [|reflexivity].
  f_equal. apply dirname_child; try assumption.
  rewrite !count_app, Hslash, Hq. now destruct is_ajax.
Qed.

End Directories.

(** ** More on the publish and delete protocol *)

Section ProtocolMore.

Context {W : Type} (E : environment W).
Variable urlparse : string -> result ParseResult.
Variable self : StaticGenerator.

Ltac step_call :=
  match goal with
  | |- context [E ?w ?c] =>
      let Hc := fresh "Hcall" in
      destruct (E w c) as [[?a|?e] ?w] eqn:Hc; simpl
  end.

Ltac open_replies :=
  repeat match goal with
         | x : reply _ |- _ => progress cbn [reply] in x
         | x : unit |- _ => destruct x
         | x : (Z * string)%type |- _ => destruct x as [?fd ?tmpname]
         end.

Ltac all_calls :=
  repeat (step_call; open_replies; simpl;
          try match goal with
              | |- context [is_OSError ?e] =>
                  destruct (is_OSError e) eqn:?; simpl
              end).

(** What the calls of [store] never are, and what they carry. *)
Lemma store_trace_facts (d f body : string) (w : W) (res : result unit)
    (w1 : W) (tr : list event) :
  run E (store (Some d) f body) w = (res, w1, tr) ->
  forallb (fun ev => negb (is_removal ev)) tr = true /\
  forallb (fun ev => negb (is_handler_call ev)) tr = true /\
  (forall data, In data (written tr) -> data = body) /\
  (forall dst, In dst (renamed_onto tr) -> dst = f) /\
  (res = Ok tt -> written tr = [body] /\ renamed_onto tr = [f]).
Proof.
  simpl. all_calls.
  all: intros H; injection H as <- <- <-.
  all: repeat split; try reflexivity; try discriminate.
  all: simpl; intros x Hin;
    repeat (destruct Hin as [Hin|Hin]; [now subst|]); contradiction.
Qed.

(** How far a publish gets: it stops without a call (with an exception,
    or normally when the path has no filename), it stops after a failed
    rendering, or it reaches [store] with the content and a filename. *)
Lemma publish_from_path_cases (raw : string)
    (query_string supplied : option string) (is_ajax : bool)
    (w : W) (res : result unit) (w' : W) (tr : list event) :
  run E (publish_from_path urlparse self raw query_string supplied is_ajax) w
    = (res, w', tr) ->
  (tr = [] /\ w' = w /\
   (is_ok res = false \/
    (res = Ok tt /\
     exists p q,
       split_unless_given raw query_string = Ok (p, q) /\
       forall f d,
         get_filename_from_path self p q is_ajax = Ok (Some f, d) ->
         f = EmptyString))) \/
  (exists request r,
      tr = [Event (DummyHandler request) r] /\ is_ok res = false /\
      truth supplied = false) \/
  (exists p q f body pre w1 t2,
      split_unless_given raw query_string = Ok (p, q) /\
      get_filename_from_path self p q is_ajax =
        Ok (Some f, Some (os_path.dirname f)) /\
      f <> EmptyString /\
      tr = (pre ++ t2)%list /\
      run E (store (Some (os_path.dirname f)) f body) w1 = (res, w', t2) /\
      ((pre = [] /\ supplied = Some body /\ truth supplied = true) \/
       (exists parsed response,
           pre = [Event (DummyHandler (request_for self raw parsed))
                        (Ok response)] /\
           body = content response /\ truth supplied = false))).
Proof.
  rewrite publish_from_path_ends_with_store.
  destruct (split_unless_given raw query_string) as [[p q]|e] eqn:Hsplit;
    cbn [lift bind];
    [|intros H; injection H as <- <- <-; left; auto].
  destruct (get_filename_from_path_cases self p q is_ajax)
    as [[_ [e Hmap]]|[[_ [_ Hmap]]|[_ [_ Hmap]]]];
    rewrite Hmap; cbn [lift bind].
  { intros H; injection H as <- <- <-; left; auto. }
  { intros H; injection H as <- <- <-. left.
    split; [reflexivity|]. split; [reflexivity|]. right.
    split; [reflexivity|]. exists p, q. split; [reflexivity|].
    intros f d H. rewrite Hmap in H. discriminate H. }
  set (f := cache_name (web_root self) p q is_ajax) in *.
  destruct f as [|f0 f'] eqn:Hf.
  { intros H; injection H as <- <- <-. left.
    split; [reflexivity|]. split; [reflexivity|]. right.
    split; [reflexivity|]. exists p, q. split; [reflexivity|].
    intros f1 d H. rewrite Hmap in H. now injection H as <- _. }
  assert (Hne : String f0 f' <> EmptyString) by discriminate.
  rewrite <- Hf in *. rewrite run_bind.
  assert (Hrender : truth supplied = false ->
    match run E (get_content_from_path urlparse self raw) w with
    | (Ok a, w1, t1) =>
        let '(r, w2, t2) :=
          run E (store (Some (os_path.dirname f)) f a) w1 in
        (r, w2, (t1 ++ t2)%list)
    | (Raise e, w1, t1) => (Raise e, w1, t1)
    end = (res, w', tr) ->
    (tr = [] /\ w' = w /\
     (is_ok res = false \/
      (res = Ok tt /\
       exists p0 q0,
         Ok (p, q) = Ok (p0, q0) /\
         forall f1 d,
           get_filename_from_path self p0 q0 is_ajax = Ok (Some f1, d) ->
           f1 = EmptyString))) \/
    (exists request r,
        tr = [Event (DummyHandler request) r] /\ is_ok res = false /\
        truth supplied = false) \/
    (exists p0 q0 f1 body pre w1 t2,
        Ok (p, q) = Ok (p0, q0) /\
        get_filename_from_path self p0 q0 is_ajax =
          Ok (Some f1, Some (os_path.dirname f1)) /\
        f1 <> EmptyString /\
        tr = (pre ++ t2)%list /\
        run E (store (Some (os_path.dirname f1)) f1 body) w1 = (res, w', t2) /\
        ((pre = [] /\ supplied = Some body /\ truth supplied = true) \/
         (exists parsed response,
             pre = [Event (DummyHandler (request_for self raw parsed))
                          (Ok response)] /\
             body = content response /\ truth supplied = false)))).
  { intros Hsupplied. rewrite run_get_content_from_path.
    destruct (urlparse raw) as [parsed|e];
      [|intros H; injection H as <- <- <-; left; auto].
    cbv zeta.
    destruct (E w (DummyHandler (request_for self raw parsed)))
      as [[response|err] w1];
      [|intros H; injection H as <- <- <-; right; left; eauto].
    destruct (status_code response =? 200)%Z;
      [|intros H; injection H as <- <- <-; right; left; eauto].
    destruct (run E (store (Some (os_path.dirname f)) f (content response)) w1)
      as [[r w2] t2] eqn:Hrun.
    intros H; injection H as <- <- <-. right. right.
    exists p, q, f, (content response),
      [Event (DummyHandler (request_for self raw parsed)) (Ok response)],
      w1, t2.
    split; [reflexivity|]. split; [exact Hmap|]. split; [exact Hne|].
    split; [reflexivity|]. split; [exact Hrun|]. right. eauto. }
  destruct supplied as [[|c0 c]|].
  - now apply Hrender.
  - cbn [run].
    destruct (run E (store (Some (os_path.dirname f)) f (String c0 c)) w)
      as [[r w2] t2] eqn:Hrun.
    intros H; injection H as <- <- <-. right. right.
    exists p, q, f, (String c0 c), [], w, t2.
    split; [reflexivity|]. split; [exact Hmap|]. split; [exact Hne|].
    split; [reflexivity|]. split; [exact Hrun|]. left. auto.
  - now apply Hrender.
Qed.

(** X10: content the caller supplies is written as it is.  With a
    non-empty [content] argument the handler is never called and every
    [os.write] carries exactly that content.  A publish that returns
    normally made no call only when the path has no filename; when the
    path maps to the filename [f], it wrote the content once and renamed
    the temporary file once, onto [f]. *)
Theorem supplied_content_is_written_as_is (raw : string)
    (query_string supplied : option string) (is_ajax : bool)
    (w : W) (res : result unit) (w' : W) (tr : list event) :
  truth supplied = true ->
  run E (publish_from_path urlparse self raw query_string supplied is_ajax) w
    = (res, w', tr) ->
  forallb (fun ev => negb (is_handler_call ev)) tr = true /\
  (forall data, In data (written tr) -> supplied = Some data) /\
  (res = Ok tt ->
   (tr = [] /\
    exists p q,
      split_unless_given raw query_string = Ok (p, q) /\
      forall f d,
        get_filename_from_path self p q is_ajax = Ok (Some f, d) ->
        f = EmptyString) \/
   (exists c p q f,
       supplied = Some c /\
       split_unless_given raw query_string = Ok (p, q) /\
       get_filename_from_path self p q is_ajax =
         Ok (Some f, Some (os_path.dirname f)) /\
       f <> EmptyString /\
       written tr = [c] /\
       renamed_onto tr = [f])).
Proof.
  intros Hsupplied Hrun.
  destruct (publish_from_path_cases _ _ _ _ _ _ _ _ Hrun)
    as [[-> [_ Hwhy]]|[[rq [r [_ [_ Hs]]]]|
        [p [q [f [body [pre [w1 [t2
          [Hsplit [Hmap [Hne [-> [Hstore Hpre]]]]]]]]]]]]]].
  - split; [reflexivity|]. split; [intros data []|].
    intros Hres. left. split; [reflexivity|].
    destruct Hwhy as [Hfail|[_ Hnone]]; [|exact Hnone].
    rewrite Hres in Hfail. discriminate Hfail.
  - congruence.
  - destruct Hpre as [[-> [-> _]]|[parsed [response [_ [_ Hs]]]]];
      [|congruence].
    destruct (store_trace_facts _ _ _ _ _ _ _ Hstore)
      as [_ [Hh [Hw [_ Hok]]]].
    cbn [app]. split; [exact Hh|]. split.
    + intros data Hin. now rewrite (Hw data Hin).
    + intros Hres. right. exists body, p, q, f.
      destruct (Hok Hres) as [Hwritten Hrenamed]. auto 10.
Qed.

Lemma written_app (a b : list event) :
  written (a ++ b) = (written a ++ written b)%list.
Proof.
  induction a as [|ev a IH]; simpl; [reflexivity|].
  destruct (ev_call ev); simpl; now rewrite IH.
Qed.

Lemma renamed_onto_app (a b : list event) :
  renamed_onto (a ++ b) = (renamed_onto a ++ renamed_onto b)%list.
Proof.
  induction a as [|ev a IH]; simpl; [reflexivity|].
  destruct (ev_call ev); simpl; now rewrite IH.
Qed.

(** X11: publishing never deletes and renders at most once.  Whatever
    the arguments and the environment, no call of a publish is
    [os.remove], [os.rmdir] or [shutil.rmtree], and at most one is a call
    of the handler. *)
Theorem publish_never_removes (raw : string)
    (query_string supplied : option string) (is_ajax : bool)
    (w : W) (res : result unit) (w' : W) (tr : list event) :
  run E (publish_from_path urlparse self raw query_string supplied is_ajax) w
    = (res, w', tr) ->
  forallb (fun ev => negb (is_removal ev)) tr = true /\
  List.length (filter is_handler_call tr) <= 1.
Proof.
  intros Hrun.
  destruct (publish_from_path_cases _ _ _ _ _ _ _ _ Hrun)
    as [[-> _]|[[rq [r [-> _]]]|
        [p [q [f [body [pre [w1 [t2 [_ [_ [_ [-> [Hstore Hpre]]]]]]]]]]]]]].
  - split; [reflexivity | simpl; lia].
  - split; [reflexivity | simpl; lia].
  - destruct (store_trace_facts _ _ _ _ _ _ _ Hstore) as [Hr [Hh _]].
    assert (Hnone : filter is_handler_call t2 = []).
    { clear - Hh. induction t2 as [|ev t IH]; [reflexivity|].
      simpl in *. apply andb_true_iff in Hh as [H1 H2].
      destruct (is_handler_call ev); [discriminate|]. now apply IH. }
    rewrite forallb_app, filter_app, Hr, Hnone, app_nil_r.
    destruct Hpre as [[-> _]|[parsed [response [-> _]]]].
    + split; [reflexivity | simpl; lia].
    + split; [reflexivity | simpl; lia].
Qed.

(** The first call of a delete whose path has a location. *)
Lemma delete_starts_with_stat (raw : string) (is_ajax : bool) (f d : string)
    (w : W) :
  cache_location self raw is_ajax = Ok (Some f, Some d) ->
  exists rest,
    snd (run E (delete_from_path self raw is_ajax) w) =
    Event (OsStat f) (fst (E w (OsStat f))) :: rest.
Proof.
  unfold cache_location, delete_from_path.
  destruct (get_query_string_from_path raw) as [[p q]|e]; [|discriminate].
  intros Hmap. cbn [lift bind]. rewrite Hmap. simpl.
  all_calls; eexists; reflexivity.
Qed.

(** X12: publish and delete agree on the location.  The name a publish
    (called with the raw path alone) renames its temporary file onto is
    the location of the raw path, and a delete of the same raw path, in
    any state, begins with [os.stat] of exactly that name. *)
Theorem delete_looks_where_publish_wrote (raw : string)
    (supplied : option string) (is_ajax : bool)
    (w : W) (res : result unit) (w' : W) (tr : list event) (dst : string) :
  run E (publish_from_path urlparse self raw None supplied is_ajax) w
    = (res, w', tr) ->
  In dst (renamed_onto tr) ->
  cache_location self raw is_ajax = Ok (Some dst, Some (os_path.dirname dst)) /\
  forall w2, exists rest,
    snd (run E (delete_from_path self raw is_ajax) w2) =
    Event (OsStat dst) (fst (E w2 (OsStat dst))) :: rest.
Proof.
  intros Hrun Hin.
  assert (Hloc : cache_location self raw is_ajax =
                 Ok (Some dst, Some (os_path.dirname dst))).
  { destruct (publish_from_path_cases _ _ _ _ _ _ _ _ Hrun)
      as [[-> _]|[[rq [r [-> _]]]|
          [p [q [f [body [pre [w1 [t2
            [Hsplit [Hmap [_ [-> [Hstore Hpre]]]]]]]]]]]]]];
      try contradiction.
    destruct (store_trace_facts _ _ _ _ _ _ _ Hstore) as [_ [_ [_ [Hd _]]]].
    rewrite renamed_onto_app in Hin. apply in_app_or in Hin as [Hin|Hin].
    - destruct Hpre as [[-> _]|[parsed [response [-> _]]]]; contradiction.
    - rewrite (Hd dst Hin). unfold cache_location.
      cbn [split_unless_given] in Hsplit. now rewrite Hsplit. }
  split; [exact Hloc|].
  intros w2.
  now apply delete_starts_with_stat with (d := os_path.dirname dst).
Qed.

(** X13: a delete touches only its own location.  When the raw path
    maps to the file [f] in the directory [d], every call of the delete
    is [os.stat] or [os.remove] of [f] or [os.rmdir] of [d]; there are at
    most three calls, and the handler is never among them. *)
Theorem delete_touches_only_its_location (raw : string) (is_ajax : bool)
    (f d : string) (w : W) (res : result unit) (w' : W) (tr : list event) :
  cache_location self raw is_ajax = Ok (Some f, Some d) ->
  run E (delete_from_path self raw is_ajax) w = (res, w', tr) ->
  forallb (deletes_only f d) tr = true /\
  1 <= List.length tr <= 3.
Proof.
  unfold cache_location, delete_from_path.
  destruct (get_query_string_from_path raw) as [[p q]|e]; [|discriminate].
  intros Hmap. cbn [lift bind]. rewrite Hmap. simpl.
  all_calls.
  all: intros H; injection H as <- <- <-.
  all: unfold deletes_only; cbn [forallb ev_call List.length];
    rewrite ?String.eqb_refl; split; [reflexivity | lia].
Qed.

(** X14: a delete cannot pass over a path without a location.  When the
    raw path does not map to a filename (it holds more than one [?], the
    name is not ASCII, or it is longer than 255 bytes) the delete raises
    and not a single call is made. *)
Theorem delete_without_location_raises (raw : string) (is_ajax : bool)
    (w : W) :
  (forall f d, cache_location self raw is_ajax <> Ok (Some f, d)) ->
  exists e, run E (delete_from_path self raw is_ajax) w = (Raise e, w, []).
Proof.
  unfold cache_location, delete_from_path. intros Hnone.
  destruct (get_query_string_from_path raw) as [[p q]|e];
    cbn [lift bind]; [|simpl; now eauto].
  destruct (get_filename_from_path_cases self p q is_ajax)
    as [[_ [e Hmap]]|[[_ [_ Hmap]]|[_ [_ Hmap]]]]; rewrite Hmap in *.
  - simpl. now eauto.
  - simpl. now eauto.
  - now elim (Hnone _ _ eq_refl).
Qed.

(** X15: a recursive delete is one call.  The raw path is not split; it
    is mapped with an empty query string and without the AJAX flag, and
    when that gives the directory [d] the only call is
    [shutil.rmtree(d, True)]; the delete returns normally when that call
    does, or fails with an [OSError]. *)
Theorem recursive_delete_is_one_rmtree (path : string) (f d : string)
    (w : W) :
  get_filename_from_path self path (Some "") false = Ok (Some f, Some d) ->
  snd (run E (recursive_delete_from_path self path) w) =
    [Event (ShutilRmtree d) (fst (E w (ShutilRmtree d)))] /\
  (tolerated (fst (E w (ShutilRmtree d))) = true ->
   run E (recursive_delete_from_path self path) w =
     (Ok tt, snd (E w (ShutilRmtree d)),
      [Event (ShutilRmtree d) (fst (E w (ShutilRmtree d)))])).
Proof.
  intros Hmap. unfold recursive_delete_from_path. rewrite Hmap.
  cbn [lift bind]. simpl.
  destruct (E w (ShutilRmtree d)) as [[[]|e] w1]; simpl.
  - split; [reflexivity|]. reflexivity.
  - destruct (is_OSError e) eqn:He; simpl; split; try reflexivity.
    discriminate.
Qed.

(** X16: a recursive delete of a path whose name is longer than 255
    bytes raises the bare [TypeError] of [os.lstat(None)], not a
    [StaticGeneratorException], and makes no call. *)
Theorem recursive_delete_oversized_raises_TypeError (path f : string)
    (w : W) :
  encode_utf8 (cache_name (web_root self) path (Some "") false) = Ok f ->
  255 < String.length f ->
  run E (recursive_delete_from_path self path) w = (Raise TypeError_None, w, [])
  /\ exn_type TypeError_None <> StaticGeneratorExceptionClass.
Proof.
  intros Henc Hlen.
  pose proof (oversized_name_has_no_location self _ _ _ _ Henc Hlen) as Hmap.
  unfold recursive_delete_from_path. rewrite Hmap.
  split; [reflexivity | discriminate].
Qed.

(** The directory of a page directly under the root (shared below). *)
Lemma top_level_directory (name f : string) (directory : option string) :
  web_root self <> "" ->
  endswith (web_root self) "/" = false ->
  name <> "" ->
  count slash name = 0 ->
  get_filename_from_path self ("/" ++ name) (Some "") false =
    Ok (Some f, directory) ->
  directory = Some (web_root self).
Proof.
  intros Hroot Hrend Hname Hslash H.
  assert (Hnend : endswith ("/" ++ name) "/" = false).
  { cbn [append]. rewrite endswith_char_cons by exact Hname.
    destruct (endswith name "/") eqn:En; [|reflexivity].
    apply endswith_iff in En as [pre ->].
    rewrite count_app in Hslash. cbn in Hslash. lia. }
  destruct (get_filename_from_path_cases self ("/" ++ name) (Some "") false)
    as [[_ [e He]]|[[_ [_ He]]|[_ [_ He]]]]; rewrite He in H;
    try discriminate H.
  injection H as <- <-. f_equal.
  change (String "/" name) with ("/" ++ name).
  unfold cache_name, index_segment. rewrite Hnend.
  rewrite join_lstrip. cbn [append lstrip query_segment ajax_segment].
  fold slash. rewrite Ascii.eqb_refl, !append_nil_r.
  assert (Hl : lstrip slash name = name).
  { destruct name as [|x name']; [now elim Hname|].
    simpl in Hslash. cbn [lstrip].
    destruct (Ascii.eqb x slash); [discriminate|reflexivity]. }
  rewrite Hl. unfold root_prefix.
  rewrite (proj2 (String.eqb_neq _ _) Hroot), Hrend. cbn [orb].
  rewrite append_assoc. now apply dirname_child.
Qed.

(** X17: a recursive delete of a page directly under the site root
    removes the whole web root.  For a non-empty web root not ending in
    a slash and a name without slash, whenever [/name] maps to a
    filename the one call of the recursive delete is
    [shutil.rmtree(web_root, True)]. *)
Theorem recursive_delete_of_top_level_page_removes_web_root (name f : string)
    (directory : option string) (w : W) :
  web_root self <> "" ->
  endswith (web_root self) "/" = false ->
  name <> "" ->
  count slash name = 0 ->
  get_filename_from_path self ("/" ++ name) (Some "") false =
    Ok (Some f, directory) ->
  snd (run E (recursive_delete_from_path self ("/" ++ name)) w) =
    [Event (ShutilRmtree (web_root self))
           (fst (E w (ShutilRmtree (web_root self))))].
Proof.
  intros Hroot Hrend Hname Hslash Hmap.
  pose proof (top_level_directory _ _ _ Hroot Hrend Hname Hslash Hmap) as ->.
  unfold recursive_delete_from_path. rewrite Hmap.
  cbn [lift bind]. simpl.
  destruct (E w (ShutilRmtree (web_root self))) as [[[]|e] w1]; simpl;
    [reflexivity|].
  now destruct (is_OSError e).
Qed.

(** X18: the batch loop returns one result for each path.  A batch
    that returns normally returns a list as long as the list of paths. *)
Theorem for_each_returns_one_result_per_path {A : Type}
    (func : string -> prog A) (paths : list string) (w : W)
    (rs : list A) (w' : W) (tr : list event) :
  run E (for_each func paths) w = (Ok rs, w', tr) ->
  List.length rs = List.length paths.
Proof.
  revert w rs w' tr. induction paths as [|p paths IH]; intros w rs w' tr.
  - simpl. intros H. now injection H as <- _ _.
  - cbn [for_each]. rewrite run_bind.
    destruct (run E (func p) w) as [[[a|e] w1] t1]; [|discriminate].
    rewrite run_bind.
    destruct (run E (for_each func paths) w1) as [[[rs'|e] w2] t2] eqn:Hrest;
      [|discriminate].
    simpl. intros H. injection H as <- _ _. simpl.
    now rewrite (IH _ _ _ _ Hrest).
Qed.

End ProtocolMore.

(** ** Resources and the constructor *)

Section Resolver.

Lemma extract_loop_from (extracted : list string) (resources : list resource) :
  extract_loop extracted resources =
  match extract_loop [] resources with
  | Ok found => Ok (extracted ++ found)%list
  | Raise e => Raise e
  end.
Proof.
  revert extracted. induction resources as [|r rs IH]; intros extracted; simpl.
  - now rewrite app_nil_r.
  - destruct (extract_one r) as [added|e]; [|reflexivity].
    rewrite IH, (IH added).
    destruct (extract_loop [] rs) as [found|e]; [|reflexivity].
    now rewrite app_assoc.
Qed.

Lemma extract_resources_cons (r : resource) (rs : list resource) :
  extract_resources (r :: rs) =
  match extract_one r with
  | Raise e => Raise e
  | Ok added =>
      match extract_resources rs with
      | Ok found => Ok (added ++ found)%list
      | Raise e => Raise e
      end
  end.
Proof.
  unfold extract_resources. simpl.
  destruct (extract_one r) as [added|e]; [|reflexivity].
  apply extract_loop_from.
Qed.

(** X19: resources are resolved in order and nothing is merged.  The
    paths of a concatenation are the paths of the first part followed by
    the paths of the second (duplicates included); an exception in the
    first part is raised whatever the second part holds. *)
Theorem extract_resources_keeps_order (xs ys : list resource) :
  extract_resources (xs ++ ys) =
  match extract_resources xs with
  | Raise e => Raise e
  | Ok first =>
      match extract_resources ys with
      | Ok second => Ok (first ++ second)%list
      | Raise e => Raise e
      end
  end.
Proof.
  induction xs as [|x xs IH].
  - simpl. now destruct (extract_resources ys).
  - cbn [app]. rewrite !extract_resources_cons, IH.
    destruct (extract_one x) as [added|e]; [|reflexivity].
    destruct (extract_resources xs) as [first|e]; [|reflexivity].
    destruct (extract_resources ys) as [second|e]; [|reflexivity].
    now rewrite app_assoc.
Qed.

(** Resources the loop treats alike can stand for each other anywhere. *)
Lemma extract_resources_replace (xs ys : list resource) (r r' : resource) :
  extract_one r = extract_one r' ->
  extract_resources (xs ++ r :: ys) = extract_resources (xs ++ r' :: ys).
Proof.
  intros H. induction xs as [|x xs IH].
  - cbn [app]. now rewrite !extract_resources_cons, H.
  - cbn [app]. now rewrite !extract_resources_cons, IH.
Qed.

(** X20: a resource of an unsupported type is passed over in silence:
    wherever it stands in the list, the result is the one of the list
    without it, and no exception is raised for it. *)
Theorem unsupported_resource_is_skipped (xs ys : list resource) :
  extract_resources (xs ++ another :: ys) = extract_resources (xs ++ ys).
Proof.
  induction xs as [|x xs IH].
  - cbn [app]. rewrite extract_resources_cons. cbn.
    now destruct (extract_resources ys).
  - cbn [app]. now rewrite !extract_resources_cons, IH.
Qed.

(** X21: a model class stands for the objects of its default manager.
    Wherever it stands in the list, a model class gives the same paths
    as its default manager, and a manager the same as the queryset its
    [all()] returns. *)
Theorem model_class_stands_for_its_objects (xs ys : list resource)
    (c : ModelBase) (m : Manager) :
  extract_resources (xs ++ a_ModelBase c :: ys) =
    extract_resources (xs ++ a_Manager (_default_manager c) :: ys) /\
  extract_resources (xs ++ a_Manager m :: ys) =
    extract_resources (xs ++ a_QuerySet (all m) :: ys).
Proof. split; now apply extract_resources_replace. Qed.

(** Plain paths resolve to themselves, in order. *)
Lemma plain_paths_extract_to_themselves (paths : list string) :
  extract_resources (map (fun s => a_string (Ok s)) paths) = Ok paths.
Proof.
  induction paths as [|p paths IH]; [reflexivity|].
  cbn [map]. rewrite extract_resources_cons, IH. reflexivity.
Qed.

End Resolver.

Section QuickFunctions.

Context {W : Type} (E : environment W).
Variable urlparse : string -> result ParseResult.

(** X23: the three module functions run the batch over the paths given.
    With [WEB_ROOT] set, called with plain paths they make the calls of
    [publish], [delete] and [recursive_delete] of a generator whose
    resources are exactly those paths, in order, and whose web root is
    the setting. *)
Theorem quick_functions_run_the_batch (django : Django) (root : string)
    (paths : list string) :
  WEB_ROOT (settings django) = Some root ->
  let resources := map (fun s => a_string (Ok s)) paths in
  let self := {| resources := paths;
                 server_name := fst (get_server_name django);
                 web_root := root |} in
  snd (staticgenerator.quick_publish urlparse django resources) =
    publish urlparse self /\
  snd (staticgenerator.quick_delete django resources) = delete self /\
  snd (staticgenerator.recursive_delete django resources) =
    recursive_delete self.
Proof.
  intros Hroot resources self.
  unfold staticgenerator.quick_publish, staticgenerator.quick_delete,
    staticgenerator.recursive_delete, __init__, resources.
  rewrite plain_paths_extract_to_themselves, Hroot.
  destruct (get_server_name django) as [name printed]. cbn [fst snd].
  repeat split.
Qed.

(** X24: without [WEB_ROOT] nothing is published or deleted.  Whatever
    the resources, each of the three module functions raises before a
    single call is made. *)
Theorem quick_functions_need_web_root (django : Django)
    (resources : list resource) (w : W) :
  WEB_ROOT (settings django) = None ->
  (exists e,
      run E (snd (staticgenerator.quick_publish urlparse django resources)) w
        = (Raise e, w, [])) /\
  (exists e,
      run E (snd (staticgenerator.quick_delete django resources)) w
        = (Raise e, w, [])) /\
  (exists e,
      run E (snd (staticgenerator.recursive_delete django resources)) w
        = (Raise e, w, [])).
Proof.
  intros Hroot.
  unfold staticgenerator.quick_publish, staticgenerator.quick_delete,
    staticgenerator.recursive_delete, __init__.
  destruct (extract_resources resources) as [extracted|e].
  - rewrite Hroot. destruct (get_server_name django) as [name printed].
    simpl. repeat split; eexists; reflexivity.
  - simpl. repeat split; eexists; reflexivity.
Qed.

End QuickFunctions.

(** ** The further theorems at work *)

Module MoreExamples.

Import SimFS Fixtures.

Lemma mapped_filename_under_web_root_witness :
  prefix (web_root s0) post_file = true /\
  exists relative,
    post_file = root_prefix (web_root s0) ++ relative /\
    startswith relative "/" = false.
Proof.
  apply (mapped_filename_under_web_root s0 "///post/1/" None false
           post_file (Some post_dir)).
  reflexivity.
Defined.

Lemma empty_query_string_leaves_no_mark_witness :
  cache_location s0 ("/a" ++ "?") false = cache_location s0 "/a" false.
Proof.
  apply (empty_query_string_leaves_no_mark s0 "/a" false). reflexivity.
Defined.

Lemma query_boundary_is_not_recorded_witness :
  cache_location s0 ("/a" ++ "?" ++ "b") false =
  cache_location s0 ("/a" ++ "b") false.
Proof.
  apply (query_boundary_is_not_recorded s0 "/a" "b" false); reflexivity.
Defined.

Lemma leading_slash_is_ignored_witness :
  get_filename_from_path s0 ("/" ++ "/a") None false =
  get_filename_from_path s0 "/a" None false.
Proof.
  apply (leading_slash_is_ignored s0 "/a" None false). discriminate.
Defined.

Lemma ajax_variant_is_a_sibling_witness :
  exists f,
    get_filename_from_path s0 "/post/1/" None false =
      Ok (Some f, Some post_dir) /\
    "/var/www/post/1/index.html%3F,ajax" = f ++ ",ajax".
Proof.
  apply (ajax_variant_is_a_sibling s0 "/post/1/" None
           "/var/www/post/1/index.html%3F,ajax" (Some post_dir)).
  reflexivity.
Defined.

Lemma index_document_with_query_witness :
  get_filename_from_path s0 "/post/1/" (Some "x=1") false =
    Ok (Some "/var/www/post/1/index.html%3Fx=1", Some post_dir).
Proof.
  apply (index_document_with_query s0 "/post/1/" "x=1" false);
    [reflexivity | discriminate | reflexivity | simpl; lia].
Defined.

Lemma top_level_page_lives_in_web_root_witness :
  Some "/var/www" = Some (web_root s0) /\
  "/var/www/aboutx=1" =
    web_root s0 ++ "/" ++ "about" ++ query_segment (Some "x=1")
    ++ ajax_segment false.
Proof.
  apply (top_level_page_lives_in_web_root s0 "about" (Some "x=1") false
           "/var/www/aboutx=1" (Some "/var/www"));
    [discriminate | reflexivity | discriminate | reflexivity | reflexivity
    | reflexivity].
Defined.

Lemma supplied_content_is_written_as_is_witness :
  forallb (fun ev => negb (is_handler_call ev)) (snd supplied_run) = true /\
  (forall data, In data (written (snd supplied_run)) ->
                Some "<p>hi</p>" = Some data) /\
  (fst (fst supplied_run) = Ok tt ->
   (snd supplied_run = [] /\
    exists p q,
      split_unless_given "/post/1/" None = Ok (p, q) /\
      forall f d,
        get_filename_from_path s0 p q false = Ok (Some f, d) ->
        f = EmptyString) \/
   (exists c p q f,
       Some "<p>hi</p>" = Some c /\
       split_unless_given "/post/1/" None = Ok (p, q) /\
       get_filename_from_path s0 p q false =
         Ok (Some f, Some (os_path.dirname f)) /\
       f <> EmptyString /\
       written (snd supplied_run) = [c] /\
       renamed_onto (snd supplied_run) = [f])).
Proof.
  apply (supplied_content_is_written_as_is E0 SimFS.urlparse s0 "/post/1/"
           None (Some "<p>hi</p>") false (empty_root "/var/www")
           (fst (fst supplied_run)) (snd (fst supplied_run)) (snd supplied_run));
    reflexivity.
Defined.

Lemma publish_never_removes_witness :
  forallb (fun ev => negb (is_removal ev)) (snd example_publish_run) = true /\
  List.length (filter is_handler_call (snd example_publish_run)) <= 1.
Proof.
  apply (publish_never_removes E0 SimFS.urlparse s0 "/post/1/?x=1" None None
           false (empty_root "/var/www") (fst (fst example_publish_run))
           (snd (fst example_publish_run)) (snd example_publish_run)).
  reflexivity.
Defined.

Lemma delete_looks_where_publish_wrote_witness :
  cache_location s0 "/post/1/?x=1" false =
    Ok (Some "/var/www/post/1/index.html%3Fx=1",
        Some (os_path.dirname "/var/www/post/1/index.html%3Fx=1")) /\
  forall w2, exists rest,
    snd (run E0 (delete_from_path s0 "/post/1/?x=1" false) w2) =
    Event (OsStat "/var/www/post/1/index.html%3Fx=1")
          (fst (E0 w2 (OsStat "/var/www/post/1/index.html%3Fx=1"))) :: rest.
Proof.
  apply (delete_looks_where_publish_wrote E0 SimFS.urlparse s0 "/post/1/?x=1"
           None false (empty_root "/var/www") (fst (fst example_publish_run))
           (snd (fst example_publish_run)) (snd example_publish_run)
           "/var/www/post/1/index.html%3Fx=1").
  - reflexivity.
  - simpl. left. reflexivity.
Defined.

Lemma delete_touches_only_its_location_witness :
  forallb (deletes_only post_file post_dir) (snd delete_run) = true /\
  1 <= List.length (snd delete_run) <= 3.
Proof.
  apply (delete_touches_only_its_location E0 s0 "/post/1/" false
           post_file post_dir (holding [(post_file, "x")] [post_dir; "/var/www"])
           (fst (fst delete_run)) (snd (fst delete_run)) (snd delete_run));
    reflexivity.
Defined.

Lemma delete_without_location_raises_witness :
  exists e,
    run E0 (delete_from_path s0 "/b?x?y" false) (empty_root "/var/www") =
      (Raise e, empty_root "/var/www", []).
Proof.
  apply (delete_without_location_raises E0 s0 "/b?x?y" false
           (empty_root "/var/www")).
  intros f d H. vm_compute in H. discriminate H.
Defined.

Lemma recursive_delete_is_one_rmtree_witness :
  snd (run E0 (recursive_delete_from_path s0 "/blog/") (empty_root "/var/www"))
    = [Event (ShutilRmtree "/var/www/blog")
             (fst (E0 (empty_root "/var/www") (ShutilRmtree "/var/www/blog")))] /\
  (tolerated (fst (E0 (empty_root "/var/www") (ShutilRmtree "/var/www/blog")))
     = true ->
   run E0 (recursive_delete_from_path s0 "/blog/") (empty_root "/var/www") =
     (Ok tt, snd (E0 (empty_root "/var/www") (ShutilRmtree "/var/www/blog")),
      [Event (ShutilRmtree "/var/www/blog")
             (fst (E0 (empty_root "/var/www") (ShutilRmtree "/var/www/blog")))])).
Proof.
  apply (recursive_delete_is_one_rmtree E0 s0 "/blog/"
           "/var/www/blog/index.html%3F" "/var/www/blog" (empty_root "/var/www")).
  reflexivity.
Defined.

Lemma recursive_delete_oversized_raises_TypeError_witness :
  run E0 (recursive_delete_from_path s0 long_path) (empty_root "/var/www") =
    (Raise TypeError_None, empty_root "/var/www", []) /\
  exn_type TypeError_None <> StaticGeneratorExceptionClass.
Proof.
  apply (recursive_delete_oversized_raises_TypeError E0 s0 long_path
           (cache_name "/var/www" long_path (Some "") false)
           (empty_root "/var/www"));
    [reflexivity | vm_compute; lia].
Defined.

Lemma recursive_delete_of_top_level_page_removes_web_root_witness :
  snd (run E0 (recursive_delete_from_path s0 ("/" ++ "about"))
         (holding [("/var/www/about", "x"); ("/var/www/contact", "y")]
            ["/var/www"])) =
    [Event (ShutilRmtree (web_root s0))
           (fst (E0 (holding [("/var/www/about", "x"); ("/var/www/contact", "y")]
                       ["/var/www"])
                    (ShutilRmtree (web_root s0))))].
Proof.
  apply (recursive_delete_of_top_level_page_removes_web_root E0 s0 "about"
           "/var/www/about" (Some "/var/www"));
    [discriminate | reflexivity | discriminate | reflexivity | reflexivity].
Defined.

(** In the simulated file system that recursive delete takes every page
    with it, not only [/about]. *)
Example recursive_delete_of_top_level_page_empties_the_site :
  fst (run E0 (recursive_delete_from_path s0 "/about")
         (holding [("/var/www/about", "x"); ("/var/www/contact", "y")]
            ["/var/www"])) =
    (Ok tt, holding [] []).
Proof. reflexivity. Qed.

Lemma for_each_returns_one_result_per_path_witness :
  List.length [tt] = List.length ["/a"].
Proof.
  apply (for_each_returns_one_result_per_path E0
           (from_path SimFS.urlparse Publish blog) ["/a"] (empty_root "/var/www")
           [tt] (snd (fst example_first_path_run)) (snd example_first_path_run)).
  reflexivity.
Defined.

(** A class, a string and an unsupported object, resolved in order. *)
Example extract_mixed_resources :
  extract_resources [a_ModelBase Post; another; a_string (Ok "/")] =
    Ok ["/post/1/"; "/post/2/"; "/"].
Proof. reflexivity. Qed.

Lemma quick_functions_run_the_batch_witness :
  snd (staticgenerator.quick_publish SimFS.urlparse configured
         (map (fun s => a_string (Ok s)) ["/a"; "/a"])) =
    publish SimFS.urlparse
      {| resources := ["/a"; "/a"];
         server_name := fst (get_server_name configured);
         web_root := "/var/www" |} /\
  snd (staticgenerator.quick_delete configured
         (map (fun s => a_string (Ok s)) ["/a"; "/a"])) =
    delete {| resources := ["/a"; "/a"];
              server_name := fst (get_server_name configured);
              web_root := "/var/www" |} /\
  snd (staticgenerator.recursive_delete configured
         (map (fun s => a_string (Ok s)) ["/a"; "/a"])) =
    recursive_delete {| resources := ["/a"; "/a"];
                        server_name := fst (get_server_name configured);
                        web_root := "/var/www" |}.
Proof.
  apply (quick_functions_run_the_batch SimFS.urlparse configured "/var/www"
           ["/a"; "/a"]).
  reflexivity.
Defined.

Lemma quick_functions_need_web_root_witness :
  (exists e,
      run E0 (snd (staticgenerator.quick_publish SimFS.urlparse unconfigured
                     [a_ModelBase Post])) (empty_root "/var/www")
        = (Raise e, empty_root "/var/www", [])) /\
  (exists e,
      run E0 (snd (staticgenerator.quick_delete unconfigured
                     [a_ModelBase Post])) (empty_root "/var/www")
        = (Raise e, empty_root "/var/www", [])) /\
  (exists e,
      run E0 (snd (staticgenerator.recursive_delete unconfigured
                     [a_ModelBase Post])) (empty_root "/var/www")
        = (Raise e, empty_root "/var/www", [])).
Proof.
  apply (quick_functions_need_web_root E0 SimFS.urlparse unconfigured
           [a_ModelBase Post] (empty_root "/var/www")).
  reflexivity.
Defined.

End MoreExamples.
